(** * phi/physics/smoke.py: the smoke engine over its collaborators

    A shallow embedding of [SmokeState] and [Smoke] from
    [phi/physics/smoke.py].  The module is an orchestration layer: every
    numeric operation is a call into [phi.math], the world or the injected
    pressure solver.  Those collaborators are gathered in the interface
    [Runtime]; the constructor, the five stages, [solve_pressure], [step],
    [disassemble] and [unserialize_from_dict] are translated line by line
    over it.

    [SmokeState] instances live in a store and are passed by reference; the
    engine [self] is the second component of the machine state.  Arrays and
    staggered grids are values: the collaborators called here build new
    ones.  A call either returns a value or raises, and a raised exception
    leaves the machine as it was at the raise. *)

From Stdlib Require Import ZArith QArith List String Lia.
From stdpp Require Import base option list strings gmap.
Import ListNotations.

Local Open Scope Z_scope.

(** ** Python values and exceptions *)

(** The exceptions that can leave the methods of [smoke.py].  [Raised name]
    stands for any exception coming out of a collaborator (the pressure
    solver) and [DanglingReference] for a reference that names no object of
    the store, which no Python program can build. *)
Inductive PyExn : Type :=
| TypeError
| AssertionError
| IndexError
| NotImplementedError
| Raised (name : string)
| DanglingReference.

Inductive Result (A : Type) : Type :=
| Ok (a : A)
| Raise (e : PyExn).
Arguments Ok {A} a.
Arguments Raise {A} e.

Definition returned {A : Type} (r : Result A) : bool :=
  match r with Ok _ => true | Raise _ => false end.

(** The values the [gravity] argument of [Smoke.__init__] ranges over, with
    the booleans that [==] produces.  Floats are idealised as rationals. *)
Inductive PyObj : Type :=
| PyBool (b : bool)
| PyInt (z : Z)
| PyFloat (q : Q)
| PyTuple (items : list Q)
| PyList (items : list Q).

(** [isinstance(o, (tuple, list))] *)
Definition isinstance_tuple_list (o : PyObj) : bool :=
  match o with
  | PyTuple _ | PyList _ => true
  | _ => false
  end.

(** The number a scalar denotes once it is stored in a numeric array
    ([True] is [1]). *)
Definition py_number (o : PyObj) : Q :=
  match o with
  | PyBool b => if b then 1%Q else 0%Q
  | PyInt z => inject_Z z
  | PyFloat q => q
  | PyTuple _ | PyList _ => 0%Q
  end.

Fixpoint items_eqb (x y : list Q) : bool :=
  match x, y with
  | [], [] => true
  | a :: x', b :: y' => Qeq_bool a b && items_eqb x' y'
  | _, _ => false
  end.

(** The items of a sequence. *)
Definition py_items (o : PyObj) : list Q :=
  match o with
  | PyTuple items | PyList items => items
  | PyBool _ | PyInt _ | PyFloat _ => []
  end.

(** [a == b]: numbers compare by value, sequences of one type item by item,
    and a sequence never equals a number or a sequence of the other type. *)
Definition py_eq (a b : PyObj) : PyObj :=
  PyBool
    match a, b with
    | PyTuple x, PyTuple y => items_eqb x y
    | PyList x, PyList y => items_eqb x y
    | PyTuple _, _ | PyList _, _ => false
    | _, PyTuple _ | _, PyList _ => false
    | _, _ => Qeq_bool (py_number a) (py_number b)
    end.

(** [len(o)]: defined on sequences, a [TypeError] on [bool], [int] and
    [float]. *)
Definition py_len (o : PyObj) : Result Z :=
  match o with
  | PyTuple items | PyList items => Ok (Z.of_nat (length items))
  | PyBool _ | PyInt _ | PyFloat _ => Raise TypeError
  end.

(** [l * n] on a list: [n] copies of [l], none when [n <= 0]. *)
Definition py_list_mul {A : Type} (l : list A) (n : Z) : list A :=
  concat (repeat l (Z.to_nat n)).

(** [l[0]] *)
Definition py_getitem0 {A : Type} (l : list A) : Result A :=
  match l with
  | [] => Raise IndexError
  | x :: _ => Ok x
  end.

(** [l[1:]] *)
Definition py_slice_from1 {A : Type} (l : list A) : list A :=
  match l with
  | [] => []
  | _ :: l' => l'
  end.

(** ** The collaborators

    Everything [smoke.py] imports from [phi.math], [phi.physics.physics],
    the world and the solver package, as one interface.  Each operation is
    named after the Python call it stands for. *)
Class Runtime : Type := {
  (** scalar fields and other dense arrays *)
  Tensor : Type;
  (** [StaggeredGrid] objects *)
  Staggered : Type;
  Grid : Type;
  Domain : Type;
  World : Type;
  WorldState : Type;
  DomainState : Type;
  Solver : Type;
  (** the iteration count a solver reports *)
  Iter : Type;

  (** [domain.rank], [domain.grid] *)
  rank : Domain -> Z;
  grid : Domain -> Grid;
  (** the defaults [Open2D] and the global [world] *)
  Open2D : Domain;
  the_world : World;
  (** [world.state]; [world.on_change(listener)] leaves the world with one
      more listener *)
  world_state : World -> WorldState;
  on_change : World -> World;
  (** [geometry_mask(world, grid, name)], [inflow_mask(world, grid)] *)
  geometry_mask : World -> Grid -> string -> Tensor;
  inflow_mask : World -> Grid -> Tensor;
  (** [DomainState(domain, world_state, active=a, accessible=b)] and
      [domainstate.with_hard_boundary_conditions(velocity)] *)
  DomainState_new : Domain -> WorldState -> Tensor -> Tensor -> DomainState;
  with_hard_boundary_conditions : DomainState -> Staggered -> Staggered;

  (** [k - t], [t + u], [t * k] on arrays *)
  scalar_sub : Q -> Tensor -> Tensor;
  tensor_add : Tensor -> Tensor -> Tensor;
  tensor_scale : Tensor -> Q -> Tensor;
  (** [t.shape[-1]]; the arrays of the data model carry a batch axis at
      least, so the index is defined *)
  last_axis : Tensor -> Z;
  (** the total of an array, its integral over the grid *)
  tensor_sum : Tensor -> Q;
  (** [nd.divergence(t, difference=d)], [nd.normalize_to(target, source)] *)
  nd_divergence : Tensor -> string -> Tensor;
  nd_normalize_to : Tensor -> Tensor -> Tensor;

  (** [v.divergence()], [StaggeredGrid.gradient(p)],
      [StaggeredGrid.from_scalar(t, forces)], [v + w], [v - w] and
      [v.advect(field, dt=dt)] for a scalar and for a staggered field *)
  staggered_divergence : Staggered -> Tensor;
  staggered_gradient : Tensor -> Staggered;
  staggered_from_scalar : Tensor -> list Q -> Staggered;
  staggered_add : Staggered -> Staggered -> Staggered;
  staggered_sub : Staggered -> Staggered -> Staggered;
  advect_tensor : Staggered -> Tensor -> Q -> Tensor;
  advect_staggered : Staggered -> Staggered -> Q -> Staggered;
  (** [phi.math.disassemble(v)]: the arrays of [v] and the function that
      builds a staggered grid back from such a list *)
  math_disassemble : Staggered -> list Tensor * (list Tensor -> Result Staggered);

  (** [solver.solve(divergence, domainstate, pressure_guess=guess)] and the
      default [SparseCG(accuracy=a)].  The solver is an object handed to the
      constructor: [solve] returns a pressure and an iteration count, or
      raises. *)
  solver_solve : Solver -> Tensor -> DomainState -> option Tensor -> Result (Tensor * Iter);
  SparseCG : Q -> Solver
}.

Section Engine.

Context {rt : Runtime}.

(** ** Objects and the machine state *)

(** [SmokeState]: the two attributes [_density] and [_velocity]. *)
Record SmokeState : Type := mkSmokeState {
  _density : Tensor;
  _velocity : Staggered
}.

(** [Smoke]: the attributes [__init__] sets, and the two diagnostics
    [solve_pressure] adds; these do not exist before the first solve. *)
Record Smoke : Type := mkSmoke {
  world : World;
  dt : Q;
  domain : Domain;
  gravity : list Q;
  buoyancy_factor : Q;
  conserve_density : bool;
  pressure_solver : Solver;
  domainstate : DomainState;
  last_pressure : option Tensor;
  last_iter : option Iter
}.

(** A reference to a [SmokeState] of the store. *)
Definition ref : Type := nat.

Record Machine : Type := mkMachine {
  heap : list SmokeState;
  self : Smoke
}.

(** Statements: from a machine to the machine after, with the value
    returned or the exception raised. *)
Definition M (A : Type) : Type := Machine -> Machine * Result A.

Definition ret {A : Type} (a : A) : M A := fun m => (m, Ok a).

Definition bind {A B : Type} (c : M A) (k : A -> M B) : M B :=
  fun m =>
    match c m with
    | (m', Ok a) => k a m'
    | (m', Raise e) => (m', Raise e)
    end.

Definition raise {A : Type} (e : PyExn) : M A := fun m => (m, Raise e).

(** A pure call that may raise. *)
Definition lift {A : Type} (r : Result A) : M A := fun m => (m, r).

Definition get_self : M Smoke := fun m => (m, Ok (self m)).

Definition set_self (e : Smoke) : M unit :=
  fun m => (mkMachine (heap m) e, Ok tt).

(** Allocation of a new object, at the first unused reference. *)
Definition alloc (o : SmokeState) : M ref :=
  fun m => (mkMachine (heap m ++ [o]) (self m), Ok (length (heap m))).

Definition deref (r : ref) : M SmokeState :=
  fun m =>
    match heap m !! r with
    | Some o => (m, Ok o)
    | None => (m, Raise DanglingReference)
    end.

End Engine.

Notation "x <- c ;; k" := (bind c (fun x => k))
  (at level 100, c at next level, right associativity).

Section Classes.

Context {rt : Runtime}.

(** ** class SmokeState *)

(** [SmokeState(density, velocity)]: a new object with the two attributes. *)
Definition SmokeState__init__ (density velocity : _) : M ref :=
  alloc (mkSmokeState density velocity).

(** The properties [density] and [velocity]. *)
Definition density (smokestate : ref) : M Tensor :=
  o <- deref smokestate ;; ret (_density o).

Definition velocity (smokestate : ref) : M Staggered :=
  o <- deref smokestate ;; ret (_velocity o).

(** [disassemble]: the list [[self._density] + v] and the function
    [lambda tensors: SmokeState(tensors[0], v_re(tensors[1:]))], where
    [v, v_re = disassemble(self._velocity)]. *)
Definition disassemble (smokestate : ref)
  : M (list Tensor * (list Tensor -> M ref)) :=
  o <- deref smokestate ;;
  let '(v, v_re) := math_disassemble (_velocity o) in
  ret ([_density o] ++ v,
       fun tensors =>
         t0 <- lift (py_getitem0 tensors) ;;
         v' <- lift (v_re (py_slice_from1 tensors)) ;;
         SmokeState__init__ t0 v').

(** ** class Smoke *)

(** The body of [_update_domain]: the mask [1 - geometry_mask(world,
    domain.grid, 'obstacle')] is both the active and the accessible mask. *)
Definition fresh_domainstate (w : World) (d : Domain) : DomainState :=
  let mask := scalar_sub 1 (geometry_mask w (grid d) "obstacle") in
  DomainState_new d (world_state w) mask mask.

Definition with_domainstate (e : Smoke) (ds : DomainState) : Smoke :=
  mkSmoke (world e) (dt e) (domain e) (gravity e) (buoyancy_factor e)
          (conserve_density e) (pressure_solver e) ds
          (last_pressure e) (last_iter e).

Definition with_diagnostics (e : Smoke) (pressure : Tensor) (iter : Iter) : Smoke :=
  mkSmoke (world e) (dt e) (domain e) (gravity e) (buoyancy_factor e)
          (conserve_density e) (pressure_solver e) (domainstate e)
          (Some pressure) (Some iter).

Definition _update_domain : M unit :=
  e <- get_self ;;
  set_self (with_domainstate e (fresh_domainstate (world e) (domain e))).

(** [np.array(items)] of a flat list of numbers. *)
Definition np_array (items : list Q) : list Q := items.

(** Lines 31 to 36 of [__init__]: the value stored in [self.gravity].  The
    assertion is evaluated as it is written, [len(gravity == domain.rank)]:
    the comparison first, then [len] of its result, then the truth of that
    length. *)
Definition gravity_vector (gravity : PyObj) (d : Domain) : Result (list Q) :=
  if isinstance_tuple_list gravity then
    match py_len (py_eq gravity (PyInt (rank d))) with
    | Raise e => Raise e
    | Ok n => if n =? 0 then Raise AssertionError else Ok (np_array (py_items gravity))
    end
  else
    Ok (np_array ([py_number gravity] ++ py_list_mul [0%Q] (rank d - 1))).

(** [Smoke(domain, world, dt, gravity, buoyancy_factor, conserve_density,
    pressure_solver)].  [Physics.__init__] stores [world] and [dt]; a missing
    solver is replaced by [SparseCG(accuracy=1e-3)]; the engine subscribes to
    the world and computes its first domain state. *)
Definition Smoke__init__ (domain : Domain) (world : World) (dt : Q)
    (gravity : PyObj) (buoyancy_factor : Q) (conserve_density : bool)
    (pressure_solver : option Solver) : Result Smoke :=
  match gravity_vector gravity domain with
  | Raise e => Raise e
  | Ok g =>
      let solver :=
        match pressure_solver with
        | None => SparseCG (1 # 1000)
        | Some s => s
        end in
      let world' := on_change world in
      Ok (mkSmoke world' dt domain g buoyancy_factor conserve_density solver
                  (fresh_domainstate world' domain) None None)
  end.

(** The constructor with every argument at its default. *)
Definition Smoke_default : Result Smoke :=
  Smoke__init__ Open2D the_world 1 (PyFloat (-981 # 100)) (1 # 10) false None.

Definition unserialize_from_dict {A : Type} : M A :=
  raise NotImplementedError.

Definition inflow (smokestate : ref) : M ref :=
  e <- get_self ;;
  let inflow := inflow_mask (world e) (grid (domain e)) in
  d <- density smokestate ;;
  v <- velocity smokestate ;;
  SmokeState__init__ (tensor_add d (tensor_scale inflow (dt e))) v.

(** Line 79 multiplies the gravity array by [buoyancy_factor], [-1] and [dt];
    numpy takes these products in the dtype of the array.  Here they are
    taken over the rationals, which stands for the float64 products of an
    engine whose gravity is a float, as the default is.  An engine whose
    gravity, factor and time step are all integers multiplies in int64,
    which wraps, and is not described by these products. *)
Definition buoyancy (smokestate : ref) : M ref :=
  e <- get_self ;;
  d <- density smokestate ;;
  let forces := map (fun g => (g * buoyancy_factor e * (-1) * dt e)%Q) (gravity e) in
  let dv := staggered_from_scalar d forces in
  d' <- density smokestate ;;
  v <- velocity smokestate ;;
  SmokeState__init__ d' (staggered_add v dv).

Definition advect (smokestate : ref) : M ref :=
  e <- get_self ;;
  prev_density <- density smokestate ;;
  v <- velocity smokestate ;;
  d <- density smokestate ;;
  let density' := advect_tensor v d (dt e) in
  v1 <- velocity smokestate ;;
  v2 <- velocity smokestate ;;
  let velocity' := advect_staggered v1 v2 (dt e) in
  let density'' :=
    if conserve_density e then nd_normalize_to density' prev_density
    else density' in
  SmokeState__init__ density'' velocity'.

Definition friction (smokestate : ref) : M ref :=
  e <- get_self ;;
  v <- velocity smokestate ;;
  let velocity' := with_hard_boundary_conditions (domainstate e) v in
  d <- density smokestate ;;
  SmokeState__init__ d velocity'.

(** The argument of [solve_pressure]: a [StaggeredGrid] or an array. *)
Inductive Field : Type :=
| StaggeredField (v : Staggered)
| TensorField (t : Tensor).

(** Lines 104 to 107: the two tests in sequence, the second one on the
    value the first one left in [input]. *)
Definition as_divergence (e : Smoke) (input : Field) : Tensor :=
  let input1 :=
    match input with
    | StaggeredField v => staggered_divergence v
    | TensorField t => t
    end in
  if last_axis input1 =? rank (domain e)
  then nd_divergence input1 "central"
  else input1.

Definition solve_pressure (input : Field) : M Tensor :=
  e <- get_self ;;
  let input' := as_divergence e input in
  solved <- lift (solver_solve (pressure_solver e) input' (domainstate e) None) ;;
  let '(pressure, iter) := solved in
  e' <- get_self ;;
  _ <- set_self (with_diagnostics e' pressure iter) ;;
  ret pressure.

(** [velocity -= w] rebinds the local name to [velocity - w]:
    [StaggeredGrid] has no in-place subtraction. *)
Definition divergence_free (smokestate : ref) : M ref :=
  e <- get_self ;;
  v <- velocity smokestate ;;
  let velocity0 := with_hard_boundary_conditions (domainstate e) v in
  pressure <- solve_pressure (StaggeredField velocity0) ;;
  let gradp := staggered_gradient pressure in
  e' <- get_self ;;
  let velocity1 :=
    staggered_sub velocity0 (with_hard_boundary_conditions (domainstate e') gradp) in
  d <- density smokestate ;;
  SmokeState__init__ d velocity1.

(** Modelled from the spec: [State.__mul__] of [phi/physics/physics.py], the
    base class of [SmokeState], which is not part of the sources.  The spec
    describes [state * op1 * op2 * ...] as sequencing: each operator is
    applied to the state built so far, so [state * op] is [op(state)]. *)
Definition State__mul__ (state : ref) (operation : ref -> M ref) : M ref :=
  operation state.

(** [smokestate * self.advect * self.inflow * self.buoyancy * self.friction
    * self.divergence_free], the product associating to the left. *)
Definition step (smokestate : ref) : M ref :=
  s1 <- State__mul__ smokestate advect ;;
  s2 <- State__mul__ s1 inflow ;;
  s3 <- State__mul__ s2 buoyancy ;;
  s4 <- State__mul__ s3 friction ;;
  State__mul__ s4 divergence_free.

End Classes.

Section Vocabulary.

Context {rt : Runtime}.

(** ** The vocabulary of the properties *)

(** Every object of [m] is an object of [m'], with the same attributes:
    between the two machines no existing [SmokeState] was mutated. *)
Definition preserves (m m' : Machine) : Prop :=
  forall r o, heap m !! r = Some o -> heap m' !! r = Some o.

(** The call [f(s)] made in [m] returns: its value [s'] is a reference to a
    new object, which holds [o'], and the call mutated no object. *)
Definition returns_new (f : ref -> M ref) (m : Machine) (s : ref)
    (m' : Machine) (s' : ref) (o' : SmokeState) : Prop :=
  f s m = (m', Ok s') /\
  heap m !! s' = None /\
  heap m' !! s' = Some o' /\
  preserves m m'.

(** The solver of the engine returns on every input. *)
Definition solver_returns (e : Smoke) : Prop :=
  forall divergence ds guess,
    returned (solver_solve (pressure_solver e) divergence ds guess) = true.

(** The solver of the engine raises on every input. *)
Definition solver_raises (e : Smoke) : Prop :=
  forall divergence ds guess,
    returned (solver_solve (pressure_solver e) divergence ds guess) = false.

(** [f] is a total function from states to states that does not mutate its
    input: on every machine and every state it returns a new state and
    leaves the objects that exist as they are. *)
Definition total_stage (f : ref -> M ref) : Prop :=
  forall m s o,
    heap m !! s = Some o ->
    exists m' s' o', returns_new f m s m' s' o'.

(** The same on the machines whose solver returns. *)
Definition total_stage_when_solver_returns (f : ref -> M ref) : Prop :=
  forall m s o,
    heap m !! s = Some o ->
    solver_returns (self m) ->
    exists m' s' o', returns_new f m s m' s' o'.

(** Both diagnostics of the last solve are set on the engine. *)
Definition diagnostics_recorded (e : Smoke) : Prop :=
  is_Some (last_pressure e) /\ is_Some (last_iter e).

(** Modelled from the spec: the contract of [nd.normalize_to] of
    [phi.math.nd], which is not part of the sources.  The target is rescaled
    so that its total matches the total of the source; a rescaling exists
    when the total of the target is not zero. *)
Definition normalize_to_rescales : Prop :=
  forall target source,
    ~ (tensor_sum target == 0)%Q ->
    (tensor_sum (nd_normalize_to target source) == tensor_sum source)%Q.

(** [phi.math.disassemble] rebuilds [v] from its own arrays. *)
Definition math_disassemble_roundtrip (v : Staggered) : Prop :=
  snd (math_disassemble v) (fst (math_disassemble v)) = Ok v.

End Vocabulary.

(** ** A small runtime

    One concrete set of collaborators, on which the engine can be run: a row
    of cells, scalar fields as lists of rationals, a staggered grid as the
    list of its components (one array per axis).  The solver [true] returns
    its input as the pressure after seven iterations, the solver [false]
    raises. *)
Module Toy.

Definition field : Type := list Q.

Definition total (t : field) : Q := fold_right Qplus 0%Q t.

Definition scale (t : field) (k : Q) : field := map (fun x => (x * k)%Q) t.

(** Modelled from the spec: [nd.normalize_to] of [phi.math.nd], which is
    not part of the sources.  The target is rescaled so that its total
    matches the total of the source: every cell is multiplied by the ratio
    of the two totals. *)
Definition normalize_to (target source : field) : field :=
  scale target (total source / total target)%Q.

Definition pointwise (f : Q -> Q -> Q) (t u : field) : field := zip_with f t u.

Definition sum_components (v : list field) : field :=
  match v with
  | [] => []
  | c :: cs => fold_left (pointwise Qplus) cs c
  end.

Definition solve (working : bool) (divergence : field) (mask : field)
    (guess : option field) : Result (field * nat) :=
  if working then Ok (divergence, 7%nat)
  else Raise (Raised "solver did not converge").

#[global] Instance runtime : Runtime := {|
  Tensor := field;
  Staggered := list field;
  Grid := nat;
  Domain := Z * nat;
  World := field * field;
  WorldState := unit;
  DomainState := field;
  Solver := bool;
  Iter := nat;
  rank := fst;
  grid := snd;
  Open2D := (2, 3%nat);
  the_world := ([0; 0; 0], [0; 1; 0])%Q;
  world_state := fun _ => tt;
  on_change := fun w => w;
  geometry_mask := fun w _ _ => fst w;
  inflow_mask := fun w _ => snd w;
  DomainState_new := fun _ _ _ accessible => accessible;
  with_hard_boundary_conditions := fun mask v => map (pointwise Qmult mask) v;
  scalar_sub := fun k t => map (fun x => (k - x)%Q) t;
  tensor_add := pointwise Qplus;
  tensor_scale := scale;
  last_axis := fun t => Z.of_nat (length t);
  tensor_sum := total;
  nd_divergence := fun t _ => pointwise Qminus (tail t) t;
  nd_normalize_to := normalize_to;
  staggered_divergence := sum_components;
  staggered_gradient := fun p => [p; p];
  staggered_from_scalar := fun t forces => map (scale t) forces;
  staggered_add := zip_with (pointwise Qplus);
  staggered_sub := zip_with (pointwise Qminus);
  advect_tensor := fun _ t _ => scale t (1 # 2);
  advect_staggered := fun _ w _ => w;
  math_disassemble := fun v => (v, fun tensors => Ok tensors);
  solver_solve := solve;
  SparseCG := fun _ => true
|}.

(** A state with density in the middle cell and a uniform velocity. *)
Definition plume : SmokeState :=
  mkSmokeState ([0; 1; 0]%Q : Tensor) ([[1; 1; 1]; [0; 0; 0]]%Q : Staggered).

(** The engine [Smoke(..., conserve_density=c, pressure_solver=working)]
    on the default domain and world, at the default gravity. *)
Definition engine (c working : bool) : Smoke :=
  match Smoke__init__ Open2D the_world 1 (PyFloat (-981 # 100)) (1 # 10) c (Some working) with
  | Ok e => e
  | Raise _ =>
      mkSmoke the_world 1 Open2D [] (1 # 10) c working [] None None
  end.

Definition machine (c working : bool) : Machine :=
  mkMachine [plume] (engine c working).

End Toy.

(** ** Serialization

    [serialize_to_dict] reads two more collaborators: the dictionary of the
    domain and the name of the solver. *)
Class Serialization {rt : Runtime} : Type := {
  (** what [domain.serialize_to_dict()] returns *)
  DomainDict : Type;
  domain_serialize_to_dict : Domain -> DomainDict;
  (** [solver.name] *)
  solver_name : Solver -> string
}.

Section Serialize.

Context {rt : Runtime} {sz : Serialization}.

(** The values of the dictionary. *)
Inductive DictValue : Type :=
| DStr (s : string)
| DInt (z : Z)
| DFloat (q : Q)
| DBool (b : bool)
| DNumbers (items : list Q)
| DDomain (d : DomainDict).

(** [serialize_to_dict], for an instance of [Smoke] itself: its class is
    named [Smoke] and lives in the module [phi.physics.smoke]. *)
Definition serialize_to_dict : M (gmap string DictValue) :=
  e <- get_self ;;
  ret (list_to_map
         [("type"%string, DStr "smoke");
          ("class"%string, DStr "Smoke");
          ("module"%string, DStr "phi.physics.smoke");
          ("rank"%string, DInt (rank (domain e)));
          ("domain"%string, DDomain (domain_serialize_to_dict (domain e)));
          ("gravity"%string, DNumbers (gravity e));
          ("buoyancy_factor"%string, DFloat (buoyancy_factor e));
          ("conserve_density"%string, DBool (conserve_density e));
          ("solver"%string, DStr (solver_name (pressure_solver e)))]).

End Serialize.

Section MoreVocabulary.

Context {rt : Runtime}.

(** ** More vocabulary *)

(** The two engines agree on everything but the diagnostics. *)
Definition same_settings (e e' : Smoke) : Prop :=
  world e' = world e /\
  dt e' = dt e /\
  domain e' = domain e /\
  gravity e' = gravity e /\
  buoyancy_factor e' = buoyancy_factor e /\
  conserve_density e' = conserve_density e /\
  pressure_solver e' = pressure_solver e /\
  domainstate e' = domainstate e.

(** Whatever its outcome, the statement [c] leaves the settings of the
    engine and every existing state as they are. *)
Definition keeps {A : Type} (c : M A) : Prop :=
  forall m m' r, c m = (m', r) -> same_settings (self m) (self m') /\ preserves m m'.

(** [n] successive calls [smokestate = smoke.step(smokestate)]. *)
Fixpoint steps (n : nat) (smokestate : ref) : M ref :=
  match n with
  | O => ret smokestate
  | S k => s' <- step smokestate ;; steps k s'
  end.

(** Two solves in a row. *)
Definition solve_twice (input1 input2 : Field) : M Tensor :=
  _ <- solve_pressure input1 ;; solve_pressure input2.

End MoreVocabulary.

(** The small runtime names its solvers and serializes a domain as
    itself. *)
#[global] Instance toy_serialization : Serialization (rt := Toy.runtime) := {|
  DomainDict := Z * nat;
  domain_serialize_to_dict := fun d => d;
  solver_name := fun working : bool =>
    if working then "echo"%string else "failing"%string
|}.

(** The small runtime again, with a solver that rejects a divergence that is
    zero everywhere and otherwise answers as before. *)
Module Picky.

Definition solve (working : bool) (divergence : Toy.field) (mask : Toy.field)
    (guess : option Toy.field) : Result (Toy.field * nat) :=
  if forallb (Qeq_bool 0) divergence then Raise (Raised "singular system")
  else Toy.solve working divergence mask guess.

Definition runtime : Runtime := {|
  Tensor := Toy.field;
  Staggered := list Toy.field;
  Grid := nat;
  Domain := Z * nat;
  World := Toy.field * Toy.field;
  WorldState := unit;
  DomainState := Toy.field;
  Solver := bool;
  Iter := nat;
  rank := rank (Runtime := Toy.runtime);
  grid := grid (Runtime := Toy.runtime);
  Open2D := Open2D (Runtime := Toy.runtime);
  the_world := the_world (Runtime := Toy.runtime);
  world_state := world_state (Runtime := Toy.runtime);
  on_change := on_change (Runtime := Toy.runtime);
  geometry_mask := geometry_mask (Runtime := Toy.runtime);
  inflow_mask := inflow_mask (Runtime := Toy.runtime);
  DomainState_new := DomainState_new (Runtime := Toy.runtime);
  with_hard_boundary_conditions :=
    with_hard_boundary_conditions (Runtime := Toy.runtime);
  scalar_sub := scalar_sub (Runtime := Toy.runtime);
  tensor_add := tensor_add (Runtime := Toy.runtime);
  tensor_scale := tensor_scale (Runtime := Toy.runtime);
  last_axis := last_axis (Runtime := Toy.runtime);
  tensor_sum := tensor_sum (Runtime := Toy.runtime);
  nd_divergence := nd_divergence (Runtime := Toy.runtime);
  nd_normalize_to := nd_normalize_to (Runtime := Toy.runtime);
  staggered_divergence := staggered_divergence (Runtime := Toy.runtime);
  staggered_gradient := staggered_gradient (Runtime := Toy.runtime);
  staggered_from_scalar := staggered_from_scalar (Runtime := Toy.runtime);
  staggered_add := staggered_add (Runtime := Toy.runtime);
  staggered_sub := staggered_sub (Runtime := Toy.runtime);
  advect_tensor := advect_tensor (Runtime := Toy.runtime);
  advect_staggered := advect_staggered (Runtime := Toy.runtime);
  math_disassemble := math_disassemble (Runtime := Toy.runtime);
  solver_solve := solve;
  SparseCG := SparseCG (Runtime := Toy.runtime)
|}.

(** An engine on the default domain, with no state in the store. *)
Definition machine : Machine (rt := runtime) :=
  mkMachine (rt := runtime) []
    (mkSmoke (rt := runtime) ([0; 0; 0], [0; 1; 0])%Q 1 (2, 3%nat)
             [-981 # 100; 0]%Q (1 # 10) false true [1; 1; 1]%Q None None).

End Picky.

(** * Properties *)

Section Store.

Context {rt : Runtime}.

(** ** The store *)

Lemma deref_valid (m : Machine) (r : ref) (o : SmokeState) :
  heap m !! r = Some o -> deref r m = (m, Ok o).
Proof. intros H. unfold deref. rewrite H. reflexivity. Qed.

Lemma density_valid (m : Machine) (r : ref) (o : SmokeState) :
  heap m !! r = Some o -> density r m = (m, Ok (_density o)).
Proof. intros H. unfold density, bind. rewrite (deref_valid _ _ _ H). reflexivity. Qed.

Lemma velocity_valid (m : Machine) (r : ref) (o : SmokeState) :
  heap m !! r = Some o -> velocity r m = (m, Ok (_velocity o)).
Proof. intros H. unfold velocity, bind. rewrite (deref_valid _ _ _ H). reflexivity. Qed.

(** The reference [alloc] returns is unused before and holds the new object
    after; every object that was there is still there, unchanged. *)
Lemma alloc_fresh (m : Machine) :
  heap m !! length (heap m) = None.
Proof. apply lookup_ge_None. lia. Qed.

Lemma alloc_new (m : Machine) (o : SmokeState) :
  heap (fst (alloc o m)) !! length (heap m) = Some o.
Proof. simpl. apply list_lookup_middle. reflexivity. Qed.

Lemma alloc_old (m : Machine) (o o' : SmokeState) (r : ref) :
  heap m !! r = Some o' -> heap (fst (alloc o m)) !! r = Some o'.
Proof.
  intros H. simpl. rewrite lookup_app_l; [exact H |].
  eapply lookup_lt_Some; exact H.
Qed.

End Store.

(** Symbolic execution: unfold the sequencing and resolve the reads of
    valid references. *)
Ltac run_reads :=
  repeat match goal with
  | H : heap ?m !! ?r = Some ?o |- context [density ?r ?m] =>
      rewrite (density_valid m r o H); cbn beta iota
  | H : heap ?m !! ?r = Some ?o |- context [velocity ?r ?m] =>
      rewrite (velocity_valid m r o H); cbn beta iota
  | H : heap ?m !! ?r = Some ?o |- context [deref ?r ?m] =>
      rewrite (deref_valid m r o H); cbn beta iota
  end.

Ltac run := unfold bind, get_self, ret, lift; cbn beta iota; run_reads.

Section Construction.

Context {rt : Runtime}.

(** ** The constructor and its gravity argument *)

Lemma py_list_mul_singleton (x : Q) (n : Z) :
  py_list_mul [x] n = repeat x (Z.to_nat n).
Proof.
  unfold py_list_mul. induction (Z.to_nat n) as [| k IH]; simpl; [reflexivity |].
  rewrite IH. reflexivity.
Qed.

Lemma gravity_vector_scalar (g : PyObj) (d : Domain) :
  isinstance_tuple_list g = false ->
  gravity_vector g d = Ok (py_number g :: repeat 0%Q (Z.to_nat (rank d - 1))).
Proof.
  intros H. unfold gravity_vector. rewrite H.
  rewrite py_list_mul_singleton. reflexivity.
Qed.

Lemma gravity_vector_sequence (g : PyObj) (d : Domain) :
  isinstance_tuple_list g = true -> gravity_vector g d = Raise TypeError.
Proof.
  intros H. unfold gravity_vector. rewrite H.
  destruct g; try discriminate; reflexivity.
Qed.

Lemma Smoke__init__gravity (d : Domain) (w : World) (step_dt : Q) (g : PyObj)
    (bf : Q) (cd : bool) (ps : option Solver) (v : list Q) :
  gravity_vector g d = Ok v ->
  exists e, Smoke__init__ d w step_dt g bf cd ps = Ok e /\ gravity e = v.
Proof.
  intros H. unfold Smoke__init__. rewrite H. eexists. split; reflexivity.
Qed.

(** C4.  A scalar gravity [g] on a domain of rank [r >= 1] is broadcast:
    the engine is built and its gravity vector is [[g, 0, ..., 0]], of
    length [r], with [g] on axis 0 and zero on every other axis. *)
Theorem scalar_gravity_broadcast (d : Domain) (w : World) (step_dt : Q)
    (g : PyObj) (bf : Q) (cd : bool) (ps : option Solver) :
  isinstance_tuple_list g = false ->
  1 <= rank d ->
  exists e,
    Smoke__init__ d w step_dt g bf cd ps = Ok e /\
    gravity e = py_number g :: repeat 0%Q (Z.to_nat (rank d - 1)) /\
    Z.of_nat (length (gravity e)) = rank d /\
    gravity e !! 0%nat = Some (py_number g) /\
    (forall i x, (1 <= i)%nat -> gravity e !! i = Some x -> x = 0%Q).
Proof.
  intros Hscalar Hrank.
  destruct (Smoke__init__gravity d w step_dt g bf cd ps _
              (gravity_vector_scalar g d Hscalar)) as [e [He Hg]].
  exists e. rewrite Hg. repeat split; [exact He | |].
  - simpl. rewrite repeat_length. lia.
  - intros i x Hi Hx. destruct i as [| i]; [lia |]. simpl in Hx.
    apply list_elem_of_lookup_2 in Hx.
    apply list_elem_of_In in Hx. apply repeat_spec in Hx. exact Hx.
Qed.

(** On a domain of rank 0 the scalar still yields the one-element vector
    [[g]]: [[0] * (-1)] is the empty list. *)
Lemma scalar_gravity_rank0 (d : Domain) (g : PyObj) :
  isinstance_tuple_list g = false -> rank d = 0 ->
  gravity_vector g d = Ok [py_number g].
Proof.
  intros Hscalar Hrank. rewrite (gravity_vector_scalar g d Hscalar), Hrank.
  reflexivity.
Qed.

(** C10.  Whatever its length, a tuple or list gravity makes the
    constructor raise: [gravity == domain.rank] is the boolean [False], and
    [len] of a boolean is a [TypeError]. *)
Theorem sequence_gravity_always_raises (d : Domain) (w : World) (step_dt : Q)
    (items : list Q) (bf : Q) (cd : bool) (ps : option Solver) :
  py_eq (PyTuple items) (PyInt (rank d)) = PyBool false /\
  py_eq (PyList items) (PyInt (rank d)) = PyBool false /\
  py_len (PyBool false) = Raise TypeError /\
  Smoke__init__ d w step_dt (PyTuple items) bf cd ps = Raise TypeError /\
  Smoke__init__ d w step_dt (PyList items) bf cd ps = Raise TypeError.
Proof.
  repeat split; unfold Smoke__init__;
    rewrite gravity_vector_sequence; reflexivity.
Qed.

(** C8.  [unserialize_from_dict] raises [NotImplementedError] from every
    state of the engine, changes nothing and never returns an engine. *)
Theorem unserialize_from_dict_always_fails (m : Machine) :
  unserialize_from_dict (A := Smoke) m = (m, Raise NotImplementedError) /\
  (forall m' e, unserialize_from_dict (A := Smoke) m <> (m', Ok e)) /\
  returned (snd (unserialize_from_dict (A := Smoke) m)) = false.
Proof.
  repeat split. intros m' e H. discriminate H.
Qed.

End Construction.

Section Stages.

Context {rt : Runtime}.

(** ** The stages, one by one

    On a valid reference each of the first four stages is one allocation:
    the attributes of the new object are computed from the attributes of the
    input and from the engine. *)

Lemma advect_run (m : Machine) (s : ref) (o : SmokeState) :
  heap m !! s = Some o ->
  let e := self m in
  let advected := advect_tensor (_velocity o) (_density o) (dt e) in
  advect s m =
  alloc (mkSmokeState
           (if conserve_density e then nd_normalize_to advected (_density o)
            else advected)
           (advect_staggered (_velocity o) (_velocity o) (dt e))) m.
Proof. intros H. unfold advect, SmokeState__init__. run. reflexivity. Qed.

Lemma inflow_run (m : Machine) (s : ref) (o : SmokeState) :
  heap m !! s = Some o ->
  let e := self m in
  inflow s m =
  alloc (mkSmokeState
           (tensor_add (_density o)
              (tensor_scale (inflow_mask (world e) (grid (domain e))) (dt e)))
           (_velocity o)) m.
Proof. intros H. unfold inflow, SmokeState__init__. run. reflexivity. Qed.

Lemma buoyancy_run (m : Machine) (s : ref) (o : SmokeState) :
  heap m !! s = Some o ->
  let e := self m in
  buoyancy s m =
  alloc (mkSmokeState
           (_density o)
           (staggered_add (_velocity o)
              (staggered_from_scalar (_density o)
                 (map (fun g => (g * buoyancy_factor e * (-1) * dt e)%Q)
                      (gravity e))))) m.
Proof. intros H. unfold buoyancy, SmokeState__init__. run. reflexivity. Qed.

Lemma friction_run (m : Machine) (s : ref) (o : SmokeState) :
  heap m !! s = Some o ->
  friction s m =
  alloc (mkSmokeState
           (_density o)
           (with_hard_boundary_conditions (domainstate (self m)) (_velocity o))) m.
Proof. intros H. unfold friction, SmokeState__init__. run. reflexivity. Qed.

(** An allocation is a call that returns a new object and mutates none. *)
Lemma alloc_returns_new (f : ref -> M ref) (m : Machine) (s : ref) (o' : SmokeState) :
  f s m = alloc o' m ->
  returns_new f m s (fst (alloc o' m)) (length (heap m)) o'.
Proof.
  intros H. unfold returns_new. rewrite H. repeat split.
  - apply alloc_fresh.
  - apply alloc_new.
  - intros r o Hr. apply alloc_old. exact Hr.
Qed.

(** ** The pressure solve *)

(** [solve_pressure] is decided by the one call to the solver: when the
    call returns, the pair is stored and the pressure returned; when it
    raises, the exception leaves [solve_pressure] and the engine is as it
    was. *)
Lemma solve_pressure_run (m : Machine) (input : Field) :
  let e := self m in
  solve_pressure input m =
  match solver_solve (pressure_solver e) (as_divergence e input) (domainstate e) None with
  | Ok (pressure, iter) =>
      (mkMachine (heap m) (with_diagnostics e pressure iter), Ok pressure)
  | Raise x => (m, Raise x)
  end.
Proof.
  unfold solve_pressure. run.
  destruct (solver_solve _ _ _ _) as [[p it] | x]; reflexivity.
Qed.

Lemma solve_pressure_returned (m m1 : Machine) (input : Field) (p : Tensor) :
  solve_pressure input m = (m1, Ok p) ->
  exists it,
    solver_solve (pressure_solver (self m)) (as_divergence (self m) input)
                 (domainstate (self m)) None = Ok (p, it) /\
    m1 = mkMachine (heap m) (with_diagnostics (self m) p it).
Proof.
  rewrite solve_pressure_run.
  destruct (solver_solve _ _ _ _) as [[p' it] | x]; intros H; [| discriminate H].
  injection H as H1 H2. subst. exists it. split; reflexivity.
Qed.

(** [divergence_free] once the solve on the boundary-conditioned velocity
    has returned [p]. *)
Lemma divergence_free_run (m m1 : Machine) (s : ref) (o : SmokeState) (p : Tensor) :
  heap m !! s = Some o ->
  let bc := with_hard_boundary_conditions (domainstate (self m)) in
  solve_pressure (StaggeredField (bc (_velocity o))) m = (m1, Ok p) ->
  divergence_free s m =
  alloc (mkSmokeState
           (_density o)
           (staggered_sub (bc (_velocity o)) (bc (staggered_gradient p)))) m1
  /\ heap m1 = heap m.
Proof.
  intros H bc Hp.
  destruct (solve_pressure_returned _ _ _ _ Hp) as [it [_ Hm1]]. subst m1.
  assert (H1 : heap (mkMachine (heap m) (with_diagnostics (self m) p it)) !! s
               = Some o) by exact H.
  unfold divergence_free, SmokeState__init__. run.
  fold bc. rewrite Hp. cbn beta iota. run. split; reflexivity.
Qed.

Lemma divergence_free_raises (m : Machine) (s : ref) (o : SmokeState) (x : PyExn) :
  heap m !! s = Some o ->
  let e := self m in
  let v := with_hard_boundary_conditions (domainstate e) (_velocity o) in
  solver_solve (pressure_solver e) (as_divergence e (StaggeredField v))
               (domainstate e) None = Raise x ->
  divergence_free s m = (m, Raise x).
Proof.
  intros H e v Hx. unfold divergence_free. run.
  rewrite solve_pressure_run. fold e v. rewrite Hx. reflexivity.
Qed.

End Stages.

Section Claims.

Context {rt : Runtime}.

(** ** The pipeline *)

Lemma bind_returns {A B : Type} (c : M A) (k : A -> M B) (m m' : Machine) (a : A) :
  c m = (m', Ok a) -> bind c k m = k a m'.
Proof. intros H. unfold bind. rewrite H. reflexivity. Qed.

Lemma returns_new_valid (f : ref -> M ref) (m m' : Machine) (s s' : ref)
    (o o' : SmokeState) :
  heap m !! s = Some o -> returns_new f m s m' s' o' ->
  heap m' !! s = Some o /\ s' <> s.
Proof.
  intros H (_ & Hfresh & _ & Hold). split; [apply Hold; exact H |].
  intros ->. rewrite H in Hfresh. discriminate Hfresh.
Qed.

(** The four stages before the projection always return, whatever the
    solver does: they never call it. *)
Lemma transport_stages_return (f : ref -> M ref) (m : Machine) (s : ref) (o : SmokeState) :
  In f [advect; inflow; buoyancy; friction] ->
  heap m !! s = Some o ->
  exists o', returns_new f m s (fst (alloc o' m)) (length (heap m)) o'.
Proof.
  intros Hf H. simpl in Hf.
  destruct Hf as [<- | [<- | [<- | [<- | []]]]]; eexists; apply alloc_returns_new.
  - exact (advect_run m s o H).
  - exact (inflow_run m s o H).
  - exact (buoyancy_run m s o H).
  - exact (friction_run m s o H).
Qed.

Lemma divergence_free_returns (m : Machine) (s : ref) (o : SmokeState) :
  heap m !! s = Some o ->
  solver_returns (self m) ->
  exists m' s' o', returns_new divergence_free m s m' s' o'.
Proof.
  intros H Hsolver.
  remember (self m) as e eqn:He.
  set (v := with_hard_boundary_conditions (domainstate e) (_velocity o)).
  pose proof (Hsolver (as_divergence e (StaggeredField v)) (domainstate e) None) as Hr.
  destruct (solver_solve (pressure_solver e) (as_divergence e (StaggeredField v))
              (domainstate e) None) as [[p it] | x] eqn:E; [| discriminate Hr].
  assert (Hp : solve_pressure (StaggeredField v) m
               = (mkMachine (heap m) (with_diagnostics e p it), Ok p)).
  { rewrite solve_pressure_run. rewrite <- He. rewrite E. reflexivity. }
  subst e.
  destruct (divergence_free_run m _ s o p H Hp) as [Hrun _].
  eexists _, _, _. unfold returns_new. rewrite Hrun. repeat split.
  - apply (alloc_fresh m).
  - apply (alloc_new (mkMachine (heap m) (with_diagnostics (self m) p it))).
  - intros r o0 Hr0.
    apply (alloc_old (mkMachine (heap m) (with_diagnostics (self m) p it))).
    exact Hr0.
Qed.

Lemma step_returns (m : Machine) (s : ref) (o : SmokeState) :
  heap m !! s = Some o ->
  solver_returns (self m) ->
  exists m1 s1 o1 m2 s2 o2 m3 s3 o3 m4 s4 o4 m5 s5 o5,
    returns_new advect m s m1 s1 o1 /\
    returns_new inflow m1 s1 m2 s2 o2 /\
    returns_new buoyancy m2 s2 m3 s3 o3 /\
    returns_new friction m3 s3 m4 s4 o4 /\
    returns_new divergence_free m4 s4 m5 s5 o5 /\
    step s m = (m5, Ok s5) /\
    heap m5 !! s = Some o.
Proof.
  intros H Hsolver.
  destruct (transport_stages_return advect m s o) as [o1 R1];
    [simpl; tauto | exact H |].
  set (m1 := fst (alloc o1 m)) in *.
  destruct (transport_stages_return inflow m1 (length (heap m)) o1) as [o2 R2];
    [simpl; tauto | apply alloc_new |].
  set (m2 := fst (alloc o2 m1)) in *.
  destruct (transport_stages_return buoyancy m2 (length (heap m1)) o2) as [o3 R3];
    [simpl; tauto | apply alloc_new |].
  set (m3 := fst (alloc o3 m2)) in *.
  destruct (transport_stages_return friction m3 (length (heap m2)) o3) as [o4 R4];
    [simpl; tauto | apply alloc_new |].
  set (m4 := fst (alloc o4 m3)) in *.
  destruct (divergence_free_returns m4 (length (heap m3)) o4) as (m5 & s5 & o5 & R5);
    [apply alloc_new | exact Hsolver |].
  exists m1, (length (heap m)), o1, m2, (length (heap m1)), o2,
         m3, (length (heap m2)), o3, m4, (length (heap m3)), o4, m5, s5, o5.
  repeat (split; [assumption |]). split.
  - unfold step, State__mul__.
    rewrite (bind_returns _ _ _ _ _ (proj1 R1)).
    rewrite (bind_returns _ _ _ _ _ (proj1 R2)).
    rewrite (bind_returns _ _ _ _ _ (proj1 R3)).
    rewrite (bind_returns _ _ _ _ _ (proj1 R4)).
    exact (proj1 R5).
  - destruct R1 as (_ & _ & _ & P1). destruct R2 as (_ & _ & _ & P2).
    destruct R3 as (_ & _ & _ & P3). destruct R4 as (_ & _ & _ & P4).
    destruct R5 as (_ & _ & _ & P5).
    apply P5, P4, P3, P2, P1. exact H.
Qed.

Lemma step_raises (m : Machine) (s : ref) (o : SmokeState) :
  heap m !! s = Some o ->
  solver_raises (self m) ->
  exists m' x, step s m = (m', Raise x) /\ preserves m m' /\ self m' = self m.
Proof.
  intros H Hsolver.
  destruct (transport_stages_return advect m s o) as [o1 R1];
    [simpl; tauto | exact H |].
  set (m1 := fst (alloc o1 m)) in *.
  destruct (transport_stages_return inflow m1 (length (heap m)) o1) as [o2 R2];
    [simpl; tauto | apply alloc_new |].
  set (m2 := fst (alloc o2 m1)) in *.
  destruct (transport_stages_return buoyancy m2 (length (heap m1)) o2) as [o3 R3];
    [simpl; tauto | apply alloc_new |].
  set (m3 := fst (alloc o3 m2)) in *.
  destruct (transport_stages_return friction m3 (length (heap m2)) o3) as [o4 R4];
    [simpl; tauto | apply alloc_new |].
  set (m4 := fst (alloc o4 m3)) in *.
  assert (H4 : heap m4 !! length (heap m3) = Some o4) by apply alloc_new.
  assert (He : self m4 = self m) by reflexivity.
  set (v := with_hard_boundary_conditions (domainstate (self m4)) (_velocity o4)).
  pose proof (Hsolver (as_divergence (self m4) (StaggeredField v))
                (domainstate (self m4)) None) as Hr.
  rewrite <- He in Hr.
  destruct (solver_solve (pressure_solver (self m4))
              (as_divergence (self m4) (StaggeredField v))
              (domainstate (self m4)) None) as [[p it] | x] eqn:E;
    [discriminate Hr |].
  exists m4, x. split; [| split; [| reflexivity]].
  - unfold step, State__mul__.
    rewrite (bind_returns _ _ _ _ _ (proj1 R1)).
    rewrite (bind_returns _ _ _ _ _ (proj1 R2)).
    rewrite (bind_returns _ _ _ _ _ (proj1 R3)).
    rewrite (bind_returns _ _ _ _ _ (proj1 R4)).
    exact (divergence_free_raises m4 _ o4 x H4 E).
  - destruct R1 as (_ & _ & _ & P1). destruct R2 as (_ & _ & _ & P2).
    destruct R3 as (_ & _ & _ & P3). destruct R4 as (_ & _ & _ & P4).
    intros r o0 Hr0. apply P4, P3, P2, P1. exact Hr0.
Qed.

(** [divergence_free] is decided by the call to the solver on the velocity
    under the boundary conditions: it returns a new state when the call
    returns, and raises what the call raises, leaving the machine as it
    was. *)
Lemma divergence_free_returns_at (m : Machine) (s : ref) (o : SmokeState)
    (p : Tensor) (it : Iter) :
  heap m !! s = Some o ->
  solver_solve (pressure_solver (self m))
    (as_divergence (self m)
       (StaggeredField
          (with_hard_boundary_conditions (domainstate (self m)) (_velocity o))))
    (domainstate (self m)) None = Ok (p, it) ->
  exists m' s' o', returns_new divergence_free m s m' s' o'.
Proof.
  intros H E.
  set (v := with_hard_boundary_conditions (domainstate (self m)) (_velocity o)) in *.
  assert (Hp : solve_pressure (StaggeredField v) m
               = (mkMachine (heap m) (with_diagnostics (self m) p it), Ok p)).
  { rewrite solve_pressure_run. rewrite E. reflexivity. }
  destruct (divergence_free_run m _ s o p H Hp) as [Hrun _].
  eexists _, _, _. unfold returns_new. rewrite Hrun. repeat split.
  - apply (alloc_fresh m).
  - apply (alloc_new (mkMachine (heap m) (with_diagnostics (self m) p it))).
  - intros r o0 Hr0.
    apply (alloc_old (mkMachine (heap m) (with_diagnostics (self m) p it))).
    exact Hr0.
Qed.

(** The four stages before the projection, run in their order: they return
    a state [o4] in a machine that has the engine and the states it started
    with, and [step] is [divergence_free] on that state. *)
Lemma step_reaches_the_projection (m : Machine) (s : ref) (o : SmokeState) :
  heap m !! s = Some o ->
  exists m1 s1 o1 m2 s2 o2 m3 s3 o3 m4 s4 o4,
    returns_new advect m s m1 s1 o1 /\
    returns_new inflow m1 s1 m2 s2 o2 /\
    returns_new buoyancy m2 s2 m3 s3 o3 /\
    returns_new friction m3 s3 m4 s4 o4 /\
    self m4 = self m /\
    preserves m m4 /\
    step s m = divergence_free s4 m4.
Proof.
  intros H.
  destruct (transport_stages_return advect m s o) as [o1 R1];
    [simpl; tauto | exact H |].
  set (m1 := fst (alloc o1 m)) in *.
  destruct (transport_stages_return inflow m1 (length (heap m)) o1) as [o2 R2];
    [simpl; tauto | apply alloc_new |].
  set (m2 := fst (alloc o2 m1)) in *.
  destruct (transport_stages_return buoyancy m2 (length (heap m1)) o2) as [o3 R3];
    [simpl; tauto | apply alloc_new |].
  set (m3 := fst (alloc o3 m2)) in *.
  destruct (transport_stages_return friction m3 (length (heap m2)) o3) as [o4 R4];
    [simpl; tauto | apply alloc_new |].
  set (m4 := fst (alloc o4 m3)) in *.
  exists m1, (length (heap m)), o1, m2, (length (heap m1)), o2,
         m3, (length (heap m2)), o3, m4, (length (heap m3)), o4.
  repeat (split; [assumption |]). split; [reflexivity |]. split.
  - destruct R1 as (_ & _ & _ & P1). destruct R2 as (_ & _ & _ & P2).
    destruct R3 as (_ & _ & _ & P3). destruct R4 as (_ & _ & _ & P4).
    intros r o0 Hr0. apply P4, P3, P2, P1. exact Hr0.
  - unfold step, State__mul__.
    rewrite (bind_returns _ _ _ _ _ (proj1 R1)).
    rewrite (bind_returns _ _ _ _ _ (proj1 R2)).
    rewrite (bind_returns _ _ _ _ _ (proj1 R3)).
    rewrite (bind_returns _ _ _ _ _ (proj1 R4)).
    reflexivity.
Qed.

(** C1, as the code has it.  [step] runs [advect], [inflow], [buoyancy],
    [friction] and [divergence_free] in this order, each on the state the
    one before returned.  No stage mutates its input.  The first four are
    total functions from states to states.  [divergence_free] is decided by
    the one call it makes to the pressure solver: where the call returns,
    it returns a new state; where the call raises [x], it raises this very
    [x] and changes nothing.  So it is total on the engines whose solver
    returns.  [step] follows: the first four stages always return, and on
    the state [o4] they build, [step] returns the projected state when the
    solver returns on the velocity of [o4] (its input still what it was),
    and raises the solver's [x], after the four stages and without having
    mutated a state or the engine, when the solver raises [x]. *)
Theorem step_runs_the_five_stages_in_order (m : Machine) (s : ref) (o : SmokeState) :
  heap m !! s = Some o ->
  step s m =
    (s1 <- advect s ;; s2 <- inflow s1 ;; s3 <- buoyancy s2 ;;
     s4 <- friction s3 ;; divergence_free s4) m /\
  Forall total_stage [advect; inflow; buoyancy; friction] /\
  total_stage_when_solver_returns divergence_free /\
  (solver_returns (self m) ->
   exists m1 s1 o1 m2 s2 o2 m3 s3 o3 m4 s4 o4 m5 s5 o5,
     returns_new advect m s m1 s1 o1 /\
     returns_new inflow m1 s1 m2 s2 o2 /\
     returns_new buoyancy m2 s2 m3 s3 o3 /\
     returns_new friction m3 s3 m4 s4 o4 /\
     returns_new divergence_free m4 s4 m5 s5 o5 /\
     step s m = (m5, Ok s5) /\
     heap m5 !! s = Some o) /\
  (solver_raises (self m) ->
   exists m' x, step s m = (m', Raise x) /\ preserves m m' /\ self m' = self m) /\
  (forall m0 s0 o0 p it,
     heap m0 !! s0 = Some o0 ->
     solver_solve (pressure_solver (self m0))
       (as_divergence (self m0)
          (StaggeredField
             (with_hard_boundary_conditions (domainstate (self m0)) (_velocity o0))))
       (domainstate (self m0)) None = Ok (p, it) ->
     exists m' s' o', returns_new divergence_free m0 s0 m' s' o') /\
  (forall m0 s0 o0 x,
     heap m0 !! s0 = Some o0 ->
     solver_solve (pressure_solver (self m0))
       (as_divergence (self m0)
          (StaggeredField
             (with_hard_boundary_conditions (domainstate (self m0)) (_velocity o0))))
       (domainstate (self m0)) None = Raise x ->
     divergence_free s0 m0 = (m0, Raise x)) /\
  (exists m1 s1 o1 m2 s2 o2 m3 s3 o3 m4 s4 o4,
     returns_new advect m s m1 s1 o1 /\
     returns_new inflow m1 s1 m2 s2 o2 /\
     returns_new buoyancy m2 s2 m3 s3 o3 /\
     returns_new friction m3 s3 m4 s4 o4 /\
     self m4 = self m /\
     preserves m m4 /\
     let attempt :=
       solver_solve (pressure_solver (self m))
         (as_divergence (self m)
            (StaggeredField
               (with_hard_boundary_conditions (domainstate (self m)) (_velocity o4))))
         (domainstate (self m)) None in
     (forall p it,
        attempt = Ok (p, it) ->
        exists m5 s5 o5,
          returns_new divergence_free m4 s4 m5 s5 o5 /\
          step s m = (m5, Ok s5) /\
          heap m5 !! s = Some o) /\
     (forall x,
        attempt = Raise x ->
        divergence_free s4 m4 = (m4, Raise x) /\
        step s m = (m4, Raise x))).
Proof.
  intros H. split; [reflexivity |].
  split; [| split; [| split; [| split; [| split; [| split]]]]].
  - assert (Htransport : forall f, In f [advect; inflow; buoyancy; friction] ->
                                     total_stage f).
    { intros f Hf m0 s0 o0 H0.
      destruct (transport_stages_return f m0 s0 o0 Hf H0) as [o' R].
      eexists _, _, _. exact R. }
    repeat constructor; apply Htransport; simpl; tauto.
  - intros m0 s0 o0 H0 Hs0. exact (divergence_free_returns m0 s0 o0 H0 Hs0).
  - exact (step_returns m s o H).
  - exact (step_raises m s o H).
  - intros m0 s0 o0 p it H0 E. exact (divergence_free_returns_at m0 s0 o0 p it H0 E).
  - intros m0 s0 o0 x H0 E. exact (divergence_free_raises m0 s0 o0 x H0 E).
  - destruct (step_reaches_the_projection m s o H)
      as (m1 & s1 & o1 & m2 & s2 & o2 & m3 & s3 & o3 & m4 & s4 & o4
          & R1 & R2 & R3 & R4 & He & Hkept & Hstep).
    exists m1, s1, o1, m2, s2, o2, m3, s3, o3, m4, s4, o4.
    repeat (split; [assumption |]).
    assert (H4 : heap m4 !! s4 = Some o4) by exact (proj1 (proj2 (proj2 R4))).
    intros attempt. split.
    + intros p it E. unfold attempt in E. rewrite <- He in E.
      destruct (divergence_free_returns_at m4 s4 o4 p it H4 E)
        as (m5 & s5 & o5 & R5).
      exists m5, s5, o5. split; [exact R5 |]. split.
      * rewrite Hstep. exact (proj1 R5).
      * destruct R5 as (_ & _ & _ & P5). apply P5, Hkept, H.
    + intros x E. unfold attempt in E. rewrite <- He in E.
      pose proof (divergence_free_raises m4 s4 o4 x H4 E) as Hraise.
      split; [exact Hraise |]. rewrite Hstep. exact Hraise.
Qed.

(** ** The projection *)

(** C2.  Let [v] be the input velocity under the hard boundary conditions
    and [p] the pressure that [solve_pressure(v)] returns.  Then
    [divergence_free(s)] returns a new [SmokeState] whose density is the
    density of [s] and whose velocity is [v] minus the boundary-conditioned
    gradient of [p]; [s] itself is not changed.  Where the boundary
    conditions leave [v] as it is, this velocity is also
    [bc(v) - bc(grad(p))]. *)
Theorem divergence_free_subtracts_pressure_gradient
    (m m1 : Machine) (s : ref) (o : SmokeState) (p : Tensor) :
  heap m !! s = Some o ->
  let bc := with_hard_boundary_conditions (domainstate (self m)) in
  let v := bc (_velocity o) in
  solve_pressure (StaggeredField v) m = (m1, Ok p) ->
  exists m' s' o',
    returns_new divergence_free m s m' s' o' /\
    _density o' = _density o /\
    _velocity o' = staggered_sub v (bc (staggered_gradient p)) /\
    (bc v = v -> _velocity o' = staggered_sub (bc v) (bc (staggered_gradient p))) /\
    heap m' !! s = Some o /\
    s' <> s.
Proof.
  intros H bc v Hp.
  destruct (divergence_free_run m m1 s o p H Hp) as [Hrun Hheap].
  set (o' := mkSmokeState (_density o) (staggered_sub v (bc (staggered_gradient p)))).
  assert (R : returns_new divergence_free m s (fst (alloc o' m1)) (length (heap m1)) o').
  { unfold returns_new. fold bc v o' in Hrun. rewrite Hrun. repeat split.
    - rewrite Hheap. apply alloc_fresh.
    - apply alloc_new.
    - intros r o0 Hr. apply alloc_old. rewrite Hheap. exact Hr. }
  exists (fst (alloc o' m1)), (length (heap m1)), o'.
  destruct (returns_new_valid _ _ _ _ _ _ _ H R) as [Hs Hne].
  split; [exact R |]. split; [reflexivity |]. split; [reflexivity |].
  split; [| split; assumption].
  intros Hidem. rewrite Hidem. reflexivity.
Qed.

(** ** The input of the solver and the diagnostics *)

(** C7.  The value [solve_pressure] passes to the solver is obtained in two
    steps.  First: for a staggered grid, the result of its own divergence
    operator; an array is kept.  Second, on the value the first step left:
    if its last axis has the length of the domain rank, its
    central-difference divergence; otherwise the value itself.  The
    outcome of [solve_pressure] is that of the solver called on this value
    with the domain state and no pressure guess. *)
Theorem solve_pressure_passes_the_divergence (m : Machine) (input : Field) :
  let e := self m in
  exists first passed,
    (forall v, input = StaggeredField v -> first = staggered_divergence v) /\
    (forall t, input = TensorField t -> first = t) /\
    (last_axis first = rank (domain e) -> passed = nd_divergence first "central") /\
    (last_axis first <> rank (domain e) -> passed = first) /\
    as_divergence e input = passed /\
    solve_pressure input m =
      match solver_solve (pressure_solver e) passed (domainstate e) None with
      | Ok (pressure, iter) =>
          (mkMachine (heap m) (with_diagnostics e pressure iter), Ok pressure)
      | Raise x => (m, Raise x)
      end.
Proof.
  intros e.
  set (first := match input with
                | StaggeredField v => staggered_divergence v
                | TensorField t => t
                end).
  assert (Hpassed : as_divergence e input
                    = if last_axis first =? rank (domain e)
                      then nd_divergence first "central" else first)
    by reflexivity.
  exists first, (as_divergence e input).
  split; [intros v ->; reflexivity |].
  split; [intros t ->; reflexivity |].
  split; [| split; [| split; [reflexivity | apply solve_pressure_run]]].
  - intros Heq. rewrite Hpassed.
    apply Z.eqb_eq in Heq. rewrite Heq. reflexivity.
  - intros Hne. rewrite Hpassed.
    apply Z.eqb_neq in Hne. rewrite Hne. reflexivity.
Qed.

(** C9, as the code has it.  When the call to the solver returns a pressure
    and an iteration count, converged or not, [solve_pressure] records both
    on the engine and returns the pressure.  When the call raises, the
    exception leaves [solve_pressure] and the machine is unchanged: the
    diagnostics are what they were before the attempt. *)
Theorem solve_pressure_records_what_the_solver_returns (m : Machine) (input : Field) :
  let e := self m in
  let attempt :=
    solver_solve (pressure_solver e) (as_divergence e input) (domainstate e) None in
  (forall p it, attempt = Ok (p, it) ->
     exists m',
       solve_pressure input m = (m', Ok p) /\
       last_pressure (self m') = Some p /\
       last_iter (self m') = Some it /\
       diagnostics_recorded (self m')) /\
  (forall x, attempt = Raise x ->
     solve_pressure input m = (m, Raise x)).
Proof.
  intros e attempt. split.
  - intros p it Hret. eexists. rewrite solve_pressure_run.
    fold e attempt. rewrite Hret.
    repeat split; simpl; eexists; reflexivity.
  - intros x Hx. rewrite solve_pressure_run. fold e attempt. rewrite Hx.
    reflexivity.
Qed.

(** ** Advection and the conservation of density *)

(** C6.  With [conserve_density] set, the density [advect] returns is the
    advected density normalized against the density before advection, and
    its total is the total before advection whenever a rescaling exists (the
    advected total is not zero).  Without the flag the advected density is
    returned as it is. *)
Theorem advect_normalizes_to_previous_total (m : Machine) (s : ref) (o : SmokeState) :
  heap m !! s = Some o ->
  normalize_to_rescales ->
  let e := self m in
  let advected := advect_tensor (_velocity o) (_density o) (dt e) in
  exists m' s' o',
    returns_new advect m s m' s' o' /\
    (conserve_density e = true ->
       _density o' = nd_normalize_to advected (_density o) /\
       (~ (tensor_sum advected == 0)%Q ->
        (tensor_sum (_density o') == tensor_sum (_density o))%Q)) /\
    (conserve_density e = false -> _density o' = advected).
Proof.
  intros H Hnorm e advected.
  eexists _, _, _. split.
  - apply alloc_returns_new. exact (advect_run m s o H).
  - fold e advected. cbn [_density]. split.
    + intros ->. split; [reflexivity |]. intros Hnz. apply Hnorm. exact Hnz.
    + intros ->. reflexivity.
Qed.

(** ** Disassembling a state *)

(** C3.  [disassemble(s)] returns the list that starts with the density of
    [s] and goes on with the arrays of its velocity, in their order,
    together with a function; the function applied to this list builds a
    new [SmokeState] with the density and the velocity of [s], provided
    [phi.math.disassemble] rebuilds the velocity from its arrays.  Neither
    call changes [s]. *)
Theorem disassemble_roundtrip (m : Machine) (s : ref) (o : SmokeState) :
  heap m !! s = Some o ->
  math_disassemble_roundtrip (_velocity o) ->
  exists fields reassemble m' s',
    disassemble s m = (m, Ok (fields, reassemble)) /\
    fields = _density o :: fst (math_disassemble (_velocity o)) /\
    reassemble fields m = (m', Ok s') /\
    heap m !! s' = None /\
    heap m' !! s' = Some (mkSmokeState (_density o) (_velocity o)) /\
    heap m' !! s' = Some o /\
    heap m' !! s = Some o.
Proof.
  intros H Hrt. unfold math_disassemble_roundtrip in Hrt.
  unfold disassemble. run.
  destruct (math_disassemble (_velocity o)) as [v v_re] eqn:E. simpl in Hrt.
  eexists _, _, _, _. split; [reflexivity |]. split; [reflexivity |].
  run. simpl. rewrite Hrt. unfold SmokeState__init__.
  split; [reflexivity |]. repeat split.
  - apply alloc_fresh.
  - apply alloc_new.
  - destruct o. apply alloc_new.
  - apply alloc_old. exact H.
Qed.

End Claims.

(** * The small runtime at work *)

(** ** Its [normalize_to] meets the contract *)

Lemma toy_total_scale (t : Toy.field) (k : Q) :
  (Toy.total (Toy.scale t k) == Toy.total t * k)%Q.
Proof.
  induction t as [| x t IH]; simpl.
  - ring.
  - rewrite IH. ring.
Qed.

Lemma toy_normalize_to_rescales : normalize_to_rescales (rt := Toy.runtime).
Proof.
  intros target source Hnz. simpl in *. unfold Toy.normalize_to.
  rewrite toy_total_scale. field. exact Hnz.
Qed.

Lemma toy_solver_returns (c : bool) : solver_returns (self (Toy.machine c true)).
Proof. intros divergence ds guess. reflexivity. Qed.

(** ** Runs *)

(** The constructor on the defaults, on a domain of rank 3 and on sequences
    of three lengths. *)
Example gravity_at_the_defaults :
  gravity_vector (PyFloat (-981 # 100)) (Open2D (Runtime := Toy.runtime))
  = Ok [-981 # 100; 0]%Q.
Proof. reflexivity. Qed.

Example gravity_on_rank_three :
  gravity_vector (rt := Toy.runtime) (PyInt (-10)) (3, 4%nat)
  = Ok [-10 # 1; 0; 0]%Q.
Proof. reflexivity. Qed.

Example gravity_sequences_of_any_length :
  map (fun g => gravity_vector (rt := Toy.runtime) g Open2D)
      [PyTuple []; PyList [-981 # 100]%Q; PyTuple [0; -981 # 100]%Q;
       PyList [0; 0; -981 # 100]%Q]
  = [Raise TypeError; Raise TypeError; Raise TypeError; Raise TypeError].
Proof. reflexivity. Qed.

(** C1 on the plume: with the working solver the step returns and the
    plume is still in the store; with the solver that raises, the step
    raises the solver's exception after the four stages, on the engine it
    started with. *)
Lemma step_runs_the_five_stages_in_order_witness :
  heap (Toy.machine true true) !! 0%nat = Some Toy.plume /\
  solver_returns (self (Toy.machine true true)) /\
  (exists m5 s5,
     step 0%nat (Toy.machine true true) = (m5, Ok s5) /\
     heap m5 !! 0%nat = Some Toy.plume) /\
  heap (Toy.machine false false) !! 0%nat = Some Toy.plume /\
  (exists m4 s4,
     divergence_free s4 m4 = (m4, Raise (Raised "solver did not converge")) /\
     step 0%nat (Toy.machine false false)
     = (m4, Raise (Raised "solver did not converge")) /\
     self m4 = self (Toy.machine false false) /\
     heap m4 !! 0%nat = Some Toy.plume).
Proof.
  split; [reflexivity |]. split; [apply toy_solver_returns |]. split.
  - destruct (step_runs_the_five_stages_in_order
                (Toy.machine true true) 0%nat Toy.plume eq_refl)
      as (_ & _ & _ & Hreturns & _).
    destruct (Hreturns (toy_solver_returns true))
      as (m1 & s1 & o1 & m2 & s2 & o2 & m3 & s3 & o3 & m4 & s4 & o4
          & m5 & s5 & o5 & _ & _ & _ & _ & _ & Hstep & Hin).
    exists m5, s5. split; [exact Hstep | exact Hin].
  - split; [reflexivity |].
    destruct (step_runs_the_five_stages_in_order
                (Toy.machine false false) 0%nat Toy.plume eq_refl)
      as (_ & _ & _ & _ & _ & _ & _ & Hpointwise).
    destruct Hpointwise
      as (m1 & s1 & o1 & m2 & s2 & o2 & m3 & s3 & o3 & m4 & s4 & o4
          & _ & _ & _ & _ & He & Hkept & _ & Hraise).
    destruct (Hraise (Raised "solver did not converge") eq_refl) as [Hd Hs].
    exists m4, s4. split; [exact Hd |]. split; [exact Hs |].
    split; [exact He |]. apply Hkept. reflexivity.
Defined.

(** C1 where the solver raises: the projection returns no state, so it is
    not a total function, and [step] raises with it. *)
Lemma divergence_free_is_not_total :
  snd (divergence_free 0%nat (Toy.machine false false))
  = Raise (Raised "solver did not converge") /\
  snd (step 0%nat (Toy.machine false false))
  = Raise (Raised "solver did not converge") /\
  ~ total_stage (rt := Toy.runtime) divergence_free.
Proof.
  split; [reflexivity |]. split; [reflexivity |].
  intros Htotal.
  destruct (Htotal (Toy.machine false false) 0%nat Toy.plume eq_refl)
    as (m' & s' & o' & Hrun & _).
  vm_compute in Hrun. discriminate Hrun.
Qed.

(** C2 on the plume: the working solver returns the divergence it is given
    as the pressure. *)
Lemma divergence_free_subtracts_pressure_gradient_witness :
  heap (Toy.machine false true) !! 0%nat = Some Toy.plume /\
  solve_pressure
    (StaggeredField
       (with_hard_boundary_conditions (domainstate (self (Toy.machine false true)))
          (_velocity Toy.plume)))
    (Toy.machine false true)
  = (mkMachine [Toy.plume]
       (with_diagnostics (self (Toy.machine false true)) [1 # 1; 1 # 1; 1 # 1]%Q 7%nat),
     Ok ([1 # 1; 1 # 1; 1 # 1]%Q : Tensor)) /\
  exists m' s' o',
    returns_new divergence_free (Toy.machine false true) 0%nat m' s' o' /\
    _density o' = [0; 1; 0]%Q /\
    _velocity o' = [[0 # 1; 0 # 1; 0 # 1]; [-1 # 1; -1 # 1; -1 # 1]]%Q.
Proof.
  split; [reflexivity |]. split; [reflexivity |].
  destruct (divergence_free_subtracts_pressure_gradient
              (Toy.machine false true) _ 0%nat Toy.plume _ eq_refl eq_refl)
    as (m' & s' & o' & R & Hd & Hv & _).
  exists m', s', o'. split; [exact R |]. split; [exact Hd |].
  rewrite Hv. reflexivity.
Defined.

(** C3 on the plume: the fields are the density and the two components of
    the velocity. *)
Lemma disassemble_roundtrip_witness :
  heap (Toy.machine false true) !! 0%nat = Some Toy.plume /\
  math_disassemble_roundtrip (_velocity Toy.plume) /\
  exists fields reassemble m' s',
    disassemble 0%nat (Toy.machine false true)
    = (Toy.machine false true, Ok (fields, reassemble)) /\
    fields = [[0; 1; 0]; [1; 1; 1]; [0; 0; 0]]%Q /\
    reassemble fields (Toy.machine false true) = (m', Ok s') /\
    heap m' !! s' = Some Toy.plume.
Proof.
  split; [reflexivity |]. split; [reflexivity |].
  destruct (disassemble_roundtrip (Toy.machine false true) 0%nat Toy.plume
              eq_refl eq_refl)
    as (fields & reassemble & m' & s' & Hd & Hf & Hr & _ & _ & Hnew & _).
  exists fields, reassemble, m', s'.
  split; [exact Hd |]. split; [rewrite Hf; reflexivity |].
  split; [exact Hr | exact Hnew].
Defined.

(** C4 at the defaults: gravity [-9.81] on the domain of rank 2. *)
Lemma scalar_gravity_broadcast_witness :
  isinstance_tuple_list (PyFloat (-981 # 100)) = false /\
  1 <= rank (Open2D (Runtime := Toy.runtime)) /\
  exists e,
    Smoke_default (rt := Toy.runtime) = Ok e /\
    gravity e = [-981 # 100; 0]%Q.
Proof.
  split; [reflexivity |]. split; [simpl; lia |].
  destruct (scalar_gravity_broadcast (rt := Toy.runtime)
              Open2D the_world 1 (PyFloat (-981 # 100)) (1 # 10) false None
              eq_refl)
    as (e & He & Hg & _); [simpl; lia |].
  exists e. split; [exact He | rewrite Hg; reflexivity].
Defined.

(** C6 on the plume: half of the density leaves the domain and the
    normalization brings the total back to one. *)
Lemma advect_normalizes_to_previous_total_witness :
  heap (Toy.machine true true) !! 0%nat = Some Toy.plume /\
  normalize_to_rescales (rt := Toy.runtime) /\
  exists m' s' o',
    returns_new advect (Toy.machine true true) 0%nat m' s' o' /\
    (tensor_sum (_density o') == 1)%Q.
Proof.
  split; [reflexivity |]. split; [exact toy_normalize_to_rescales |].
  destruct (advect_normalizes_to_previous_total
              (Toy.machine true true) 0%nat Toy.plume eq_refl
              toy_normalize_to_rescales)
    as (m' & s' & o' & R & Hon & _).
  exists m', s', o'. split; [exact R |].
  destruct (Hon eq_refl) as [_ Htotal].
  rewrite Htotal; [reflexivity |].
  intros Hz. vm_compute in Hz. discriminate Hz.
Defined.

(** C7 on the velocity of the plume: its divergence has three cells, the
    rank is two, and the solver receives the divergence itself. *)
Lemma solve_pressure_passes_the_divergence_witness :
  exists passed,
    as_divergence (self (Toy.machine false true))
                  (StaggeredField (_velocity Toy.plume)) = passed /\
    passed = staggered_divergence (_velocity Toy.plume) /\
    snd (solve_pressure (StaggeredField (_velocity Toy.plume))
                        (Toy.machine false true)) = Ok passed.
Proof.
  destruct (solve_pressure_passes_the_divergence
              (Toy.machine false true) (StaggeredField (_velocity Toy.plume)))
    as (first & passed & Hfirst & _ & _ & Hkeep & Hpassed & Hrun).
  exists passed. split; [exact Hpassed |].
  rewrite (Hfirst _ eq_refl) in Hkeep.
  assert (Hp : passed = staggered_divergence (_velocity Toy.plume)).
  { apply Hkeep. vm_compute. discriminate. }
  split; [exact Hp |].
  rewrite Hrun, Hp. reflexivity.
Defined.

(** C9 where the solver returns: both diagnostics are set. *)
Lemma solve_pressure_records_what_the_solver_returns_witness :
  exists m',
    solve_pressure (StaggeredField (_velocity Toy.plume)) (Toy.machine false true)
    = (m', Ok ([1; 1; 1]%Q : Tensor)) /\
    last_pressure (self m') = Some ([1; 1; 1]%Q : Tensor) /\
    last_iter (self m') = Some 7%nat.
Proof.
  destruct (solve_pressure_records_what_the_solver_returns
              (Toy.machine false true) (StaggeredField (_velocity Toy.plume)))
    as [Hret _].
  destruct (Hret ([1; 1; 1]%Q : Toy.field) 7%nat eq_refl) as (m' & Hrun & Hp & Hi & _).
  exists m'. split; [exact Hrun |]. split; [exact Hp | exact Hi].
Defined.

(** C9 where the solver raises: the solve was attempted, the exception
    left [solve_pressure], and neither diagnostic is on the engine. *)
Lemma failed_solve_records_no_diagnostics :
  snd (solve_pressure (StaggeredField (_velocity Toy.plume)) (Toy.machine false false))
  = Raise (Raised "solver did not converge") /\
  last_pressure
    (self (fst (solve_pressure (StaggeredField (_velocity Toy.plume))
                               (Toy.machine false false)))) = None /\
  ~ diagnostics_recorded
      (self (fst (solve_pressure (StaggeredField (_velocity Toy.plume))
                                 (Toy.machine false false)))).
Proof.
  split; [reflexivity |]. split; [reflexivity |].
  intros [[p Hp] _]. discriminate Hp.
Qed.

(** C5 at a list of two numbers on the domain of rank 2: the constructor
    raises [TypeError] where the vector should have been accepted and
    stored. *)
Example rank_length_gravity_is_rejected :
  rank (Open2D (Runtime := Toy.runtime)) = Z.of_nat (length [0; -981 # 100]%Q) /\
  gravity_vector (rt := Toy.runtime) (PyList [0; -981 # 100]%Q) Open2D
  = Raise TypeError /\
  Smoke__init__ (rt := Toy.runtime) Open2D the_world 1
    (PyList [0; -981 # 100]%Q) (1 # 10) false None
  = Raise TypeError.
Proof. repeat split. Qed.

(** * More of the two classes *)

Section States.

Context {rt : Runtime}.

(** ** Building and reading a state *)

(** X1.  A state built from [d] and [v] is a new object whose properties
    read back [d] and [v]; the states that were there read as before and
    the engine is the same. *)
Theorem SmokeState_reads_back (d : Tensor) (v : Staggered) (m : Machine) :
  exists m' s,
    SmokeState__init__ d v m = (m', Ok s) /\
    heap m !! s = None /\
    density s m' = (m', Ok d) /\
    velocity s m' = (m', Ok v) /\
    (forall r o, heap m !! r = Some o ->
       density r m' = (m', Ok (_density o)) /\
       velocity r m' = (m', Ok (_velocity o))) /\
    self m' = self m.
Proof.
  exists (fst (alloc (mkSmokeState d v) m)), (length (heap m)).
  pose proof (alloc_new m (mkSmokeState d v)) as Hnew.
  split; [reflexivity |]. split; [apply alloc_fresh |].
  split; [exact (density_valid _ _ _ Hnew) |].
  split; [exact (velocity_valid _ _ _ Hnew) |].
  split; [| reflexivity].
  intros r o Hr. pose proof (alloc_old m (mkSmokeState d v) o r Hr) as Hold.
  split; [exact (density_valid _ _ _ Hold) | exact (velocity_valid _ _ _ Hold)].
Qed.

(** X2.  The function [disassemble] returns can be applied to other lists
    than the one it came with.  On the empty list it raises [IndexError];
    on [t :: rest] it builds a new state with density [t] and the velocity
    [v_re] makes of [rest], and when [v_re] raises, so does the function.
    No call creates a state before it fails, and none changes an existing
    state. *)
Theorem reassemble_on_any_list (m : Machine) (s : ref) (o : SmokeState) :
  heap m !! s = Some o ->
  exists fields reassemble,
    disassemble s m = (m, Ok (fields, reassemble)) /\
    (forall m0, reassemble [] m0 = (m0, Raise IndexError)) /\
    (forall m0 t rest v',
       snd (math_disassemble (_velocity o)) rest = Ok v' ->
       exists m1 s1,
         reassemble (t :: rest) m0 = (m1, Ok s1) /\
         heap m0 !! s1 = None /\
         heap m1 !! s1 = Some (mkSmokeState t v') /\
         preserves m0 m1) /\
    (forall m0 t rest x,
       snd (math_disassemble (_velocity o)) rest = Raise x ->
       reassemble (t :: rest) m0 = (m0, Raise x)).
Proof.
  intros H. unfold disassemble. run.
  destruct (math_disassemble (_velocity o)) as [v v_re] eqn:E. simpl.
  eexists _, _. split; [reflexivity |].
  split; [intros m0; reflexivity |]. split.
  - intros m0 t rest v' Hre. run. simpl. rewrite Hre. unfold SmokeState__init__.
    exists (fst (alloc (mkSmokeState t v') m0)), (length (heap m0)).
    split; [reflexivity |]. split; [apply alloc_fresh |].
    split; [apply alloc_new |]. intros r o0 Hr. apply alloc_old. exact Hr.
  - intros m0 t rest x Hre. run. simpl. rewrite Hre. reflexivity.
Qed.

End States.

Section Constructor.

Context {rt : Runtime}.

(** ** What the constructor stores *)

Lemma gravity_vector_length (g : PyObj) (d : Domain) (v : list Q) :
  gravity_vector g d = Ok v ->
  Z.of_nat (length v) = Z.max 1 (rank d) /\ v !! 0%nat = Some (py_number g).
Proof.
  destruct (isinstance_tuple_list g) eqn:Hg.
  - rewrite (gravity_vector_sequence g d Hg). discriminate.
  - rewrite (gravity_vector_scalar g d Hg). intros [= <-]. split; [| reflexivity].
    simpl. rewrite repeat_length. lia.
Qed.

Lemma Smoke__init__stores (d : Domain) (w : World) (step_dt : Q) (g : PyObj)
    (bf : Q) (cd : bool) (ps : option Solver) (e : Smoke) :
  Smoke__init__ d w step_dt g bf cd ps = Ok e ->
  world e = on_change w /\
  dt e = step_dt /\
  domain e = d /\
  buoyancy_factor e = bf /\
  conserve_density e = cd /\
  pressure_solver e = default (SparseCG (1 # 1000)) ps /\
  domainstate e = fresh_domainstate (on_change w) d /\
  last_pressure e = None /\
  last_iter e = None /\
  Z.of_nat (length (gravity e)) = Z.max 1 (rank d) /\
  gravity e !! 0%nat = Some (py_number g).
Proof.
  unfold Smoke__init__.
  destruct (gravity_vector g d) as [v | x] eqn:Hv; [| discriminate].
  intros [= <-]. cbn [world dt domain buoyancy_factor conserve_density
                      pressure_solver domainstate last_pressure last_iter gravity].
  destruct (gravity_vector_length g d v Hv) as [Hlen Hhead].
  repeat split; assumption.
Qed.

(** X3.  The constructor returns exactly when [gravity] is neither a tuple
    nor a list.  The engine it returns holds the arguments as they were
    given, the solver [SparseCG(accuracy=1e-3)] when none was given, the
    domain state of the world it subscribed to, and no diagnostics; its
    gravity vector starts with the scalar and is never empty: it has
    [max(1, rank)] entries. *)
Theorem constructor_returns_iff_scalar_gravity (d : Domain) (w : World)
    (step_dt : Q) (g : PyObj) (bf : Q) (cd : bool) (ps : option Solver) :
  returned (Smoke__init__ d w step_dt g bf cd ps) = negb (isinstance_tuple_list g) /\
  (forall e,
     Smoke__init__ d w step_dt g bf cd ps = Ok e ->
     world e = on_change w /\
     dt e = step_dt /\
     domain e = d /\
     buoyancy_factor e = bf /\
     conserve_density e = cd /\
     pressure_solver e = default (SparseCG (1 # 1000)) ps /\
     domainstate e = fresh_domainstate (on_change w) d /\
     last_pressure e = None /\
     last_iter e = None /\
     Z.of_nat (length (gravity e)) = Z.max 1 (rank d) /\
     gravity e !! 0%nat = Some (py_number g)).
Proof.
  split.
  - unfold Smoke__init__. destruct (isinstance_tuple_list g) eqn:Hg.
    + rewrite (gravity_vector_sequence g d Hg). reflexivity.
    + rewrite (gravity_vector_scalar g d Hg). reflexivity.
  - intros e. apply Smoke__init__stores.
Qed.

(** ** The domain state *)

(** X4.  [_update_domain] always returns; afterwards the domain state is
    the one of the current world and domain, whatever it was before, and
    nothing else has changed: not the store, not the other settings, not
    the diagnostics.  A second call changes nothing, and neither does a
    call on an engine that the constructor has just returned. *)
Theorem update_domain_refreshes_only_the_domain_state (m : Machine) :
  exists m',
    _update_domain m = (m', Ok tt) /\
    domainstate (self m') = fresh_domainstate (world (self m)) (domain (self m)) /\
    heap m' = heap m /\
    world (self m') = world (self m) /\
    dt (self m') = dt (self m) /\
    domain (self m') = domain (self m) /\
    gravity (self m') = gravity (self m) /\
    buoyancy_factor (self m') = buoyancy_factor (self m) /\
    conserve_density (self m') = conserve_density (self m) /\
    pressure_solver (self m') = pressure_solver (self m) /\
    last_pressure (self m') = last_pressure (self m) /\
    last_iter (self m') = last_iter (self m) /\
    _update_domain m' = (m', Ok tt) /\
    (forall d w step_dt g bf cd ps,
       Smoke__init__ d w step_dt g bf cd ps = Ok (self m) -> m' = m).
Proof.
  eexists. split; [reflexivity |]. cbn.
  repeat (split; [reflexivity |]).
  intros d w step_dt g bf cd ps. unfold Smoke__init__.
  destruct (gravity_vector g d) as [v | x]; [| discriminate].
  intros [= He]. destruct m as [h e]. cbn in *. subst e. reflexivity.
Qed.

End Constructor.

Section Frame.

Context {rt : Runtime}.

(** ** What no stage changes *)

Lemma same_settings_refl (e : Smoke) : same_settings e e.
Proof. repeat split. Qed.

Lemma same_settings_trans (e1 e2 e3 : Smoke) :
  same_settings e1 e2 -> same_settings e2 e3 -> same_settings e1 e3.
Proof.
  unfold same_settings.
  intros (A1 & A2 & A3 & A4 & A5 & A6 & A7 & A8) (B1 & B2 & B3 & B4 & B5 & B6 & B7 & B8).
  repeat split; congruence.
Qed.

Lemma same_settings_with_diagnostics (e : Smoke) (p : Tensor) (it : Iter) :
  same_settings e (with_diagnostics e p it).
Proof. repeat split. Qed.

Lemma preserves_refl (m : Machine) : preserves m m.
Proof. intros r o H. exact H. Qed.

Lemma preserves_trans (m1 m2 m3 : Machine) :
  preserves m1 m2 -> preserves m2 m3 -> preserves m1 m3.
Proof. intros H12 H23 r o H. apply H23, H12, H. Qed.

Lemma keeps_unchanged {A : Type} (c : M A) :
  (forall m, fst (c m) = m) -> keeps c.
Proof.
  intros Hc m m' r E. specialize (Hc m). rewrite E in Hc. simpl in Hc. subst m'.
  split; [apply same_settings_refl | apply preserves_refl].
Qed.

Lemma keeps_ret {A : Type} (a : A) : keeps (ret a).
Proof. apply keeps_unchanged. reflexivity. Qed.

Lemma keeps_raise {A : Type} (x : PyExn) : keeps (raise (A := A) x).
Proof. apply keeps_unchanged. reflexivity. Qed.

Lemma keeps_lift {A : Type} (r : Result A) : keeps (lift r).
Proof. apply keeps_unchanged. reflexivity. Qed.

Lemma keeps_get_self : keeps get_self.
Proof. apply keeps_unchanged. reflexivity. Qed.

Lemma keeps_deref (r : ref) : keeps (deref r).
Proof.
  apply keeps_unchanged. intros m. unfold deref.
  destruct (heap m !! r); reflexivity.
Qed.

Lemma keeps_alloc (o : SmokeState) : keeps (alloc o).
Proof.
  intros m m' r E. injection E as <- _.
  split; [apply same_settings_refl |].
  intros r0 o0 H0. apply (alloc_old m o o0 r0 H0).
Qed.

Lemma keeps_bind {A B : Type} (c : M A) (k : A -> M B) :
  keeps c -> (forall a, keeps (k a)) -> keeps (bind c k).
Proof.
  intros Hc Hk m m' r E. unfold bind in E.
  destruct (c m) as [m1 [a | x]] eqn:Ec.
  - destruct (Hc _ _ _ Ec) as [S1 P1]. destruct (Hk a _ _ _ E) as [S2 P2].
    split; [eapply same_settings_trans | eapply preserves_trans]; eassumption.
  - injection E as <- <-. exact (Hc _ _ _ Ec).
Qed.

Lemma keeps_solve_pressure (input : Field) : keeps (solve_pressure input).
Proof.
  intros m m' r E. rewrite solve_pressure_run in E.
  destruct (solver_solve _ _ _ _) as [[p it] | x]; injection E as <- <-.
  - split; [apply same_settings_with_diagnostics |].
    intros r0 o0 H0. exact H0.
  - split; [apply same_settings_refl | apply preserves_refl].
Qed.

End Frame.

Create HintDb keeps discriminated.

#[local] Hint Resolve keeps_ret keeps_raise keeps_lift keeps_get_self
  keeps_deref keeps_alloc keeps_solve_pressure : keeps.

(** A statement keeps the settings and the states when each statement it
    sequences does. *)
Ltac keeps_step :=
  first [ solve [auto with keeps]
        | progress cbv zeta
        | apply keeps_bind; [| intros ] ].

Ltac keeps := repeat keeps_step.

Section FrameOfTheStages.

Context {rt : Runtime}.

Lemma keeps_density (s : ref) : keeps (density s).
Proof. unfold density. keeps. Qed.

Lemma keeps_velocity (s : ref) : keeps (velocity s).
Proof. unfold velocity. keeps. Qed.

Lemma keeps_SmokeState__init__ (d : Tensor) (v : Staggered) :
  keeps (SmokeState__init__ d v).
Proof. unfold SmokeState__init__. keeps. Qed.

#[local] Hint Resolve keeps_density keeps_velocity keeps_SmokeState__init__ : keeps.

Lemma keeps_advect (s : ref) : keeps (advect s).
Proof. unfold advect. keeps. Qed.

Lemma keeps_inflow (s : ref) : keeps (inflow s).
Proof. unfold inflow. keeps. Qed.

Lemma keeps_buoyancy (s : ref) : keeps (buoyancy s).
Proof. unfold buoyancy. keeps. Qed.

Lemma keeps_friction (s : ref) : keeps (friction s).
Proof. unfold friction. keeps. Qed.

Lemma keeps_divergence_free (s : ref) : keeps (divergence_free s).
Proof. unfold divergence_free. keeps. Qed.

#[local] Hint Resolve keeps_advect keeps_inflow keeps_buoyancy keeps_friction
  keeps_divergence_free : keeps.

Lemma keeps_step_call (s : ref) : keeps (step s).
Proof. unfold step, State__mul__. keeps. Qed.

Lemma listed_stage_keeps (f : ref -> M ref) (s : ref) :
  In f [advect; inflow; buoyancy; friction; divergence_free; step] ->
  keeps (f s).
Proof.
  simpl. intros [<- | [<- | [<- | [<- | [<- | [<- | []]]]]]];
    auto using keeps_step_call with keeps.
Qed.

(** X5.  Whatever its argument and whatever its outcome, a value or an
    exception, no stage, nor [step], nor [solve_pressure] changes a setting
    of the engine (world, time step, domain, gravity, buoyancy factor,
    conservation flag, solver, domain state) or an existing state: the
    only things that change are the two diagnostics and the states that
    are added. *)
Theorem stages_keep_settings_and_states :
  Forall (fun f : ref -> M ref => forall s, keeps (f s))
         [advect; inflow; buoyancy; friction; divergence_free; step] /\
  (forall input, keeps (solve_pressure input)).
Proof.
  split; [| exact keeps_solve_pressure].
  apply List.Forall_forall. intros f Hf s. apply listed_stage_keeps. exact Hf.
Qed.

(** ** Diagnostics over several solves *)

(** X6.  After a solve that returned [(p1, it1)], a second solve that
    returns [(p2, it2)] overwrites both diagnostics: only the last solve is
    remembered.  A second solve that raises leaves the diagnostics of the
    first one in place. *)
Theorem second_solve_and_the_diagnostics (m : Machine) (input1 input2 : Field)
    (p1 : Tensor) (it1 : Iter) :
  let e := self m in
  solver_solve (pressure_solver e) (as_divergence e input1) (domainstate e) None
  = Ok (p1, it1) ->
  (forall p2 it2,
     solver_solve (pressure_solver e) (as_divergence e input2) (domainstate e) None
     = Ok (p2, it2) ->
     exists m',
       solve_twice input1 input2 m = (m', Ok p2) /\
       last_pressure (self m') = Some p2 /\ last_iter (self m') = Some it2) /\
  (forall x,
     solver_solve (pressure_solver e) (as_divergence e input2) (domainstate e) None
     = Raise x ->
     exists m',
       solve_twice input1 input2 m = (m', Raise x) /\
       last_pressure (self m') = Some p1 /\ last_iter (self m') = Some it1).
Proof.
  intros e H1.
  assert (E1 : solve_pressure input1 m
               = (mkMachine (heap m) (with_diagnostics e p1 it1), Ok p1)).
  { rewrite solve_pressure_run. fold e. rewrite H1. reflexivity. }
  split.
  - intros p2 it2 H2. eexists. unfold solve_twice.
    rewrite (bind_returns _ _ _ _ _ E1), solve_pressure_run.
    cbn [self heap]. change (as_divergence (with_diagnostics e p1 it1) input2)
      with (as_divergence e input2).
    cbn [pressure_solver domainstate with_diagnostics]. rewrite H2.
    repeat split.
  - intros x H2. eexists. unfold solve_twice.
    rewrite (bind_returns _ _ _ _ _ E1), solve_pressure_run.
    cbn [self heap]. change (as_divergence (with_diagnostics e p1 it1) input2)
      with (as_divergence e input2).
    cbn [pressure_solver domainstate with_diagnostics]. rewrite H2.
    repeat split.
Qed.

End FrameOfTheStages.

Section StepInFull.

Context {rt : Runtime}.

(** ** One step, written out *)

Lemma lookup_added {A : Type} (h l : list A) (i : nat) :
  (h ++ l) !! (length h + i)%nat = l !! i.
Proof.
  rewrite lookup_app_r by lia. f_equal. lia.
Qed.

(** The five objects a step adds to the store and the outcome of the step,
    according to what the solver does on the velocity that reaches it. *)
Lemma step_written_out (m : Machine) (s : ref) (o : SmokeState) :
  heap m !! s = Some o ->
  let e := self m in
  let bc := with_hard_boundary_conditions (domainstate e) in
  let advected := advect_tensor (_velocity o) (_density o) (dt e) in
  let o1 := mkSmokeState
              (if conserve_density e then nd_normalize_to advected (_density o)
               else advected)
              (advect_staggered (_velocity o) (_velocity o) (dt e)) in
  let o2 := mkSmokeState
              (tensor_add (_density o1)
                 (tensor_scale (inflow_mask (world e) (grid (domain e))) (dt e)))
              (_velocity o1) in
  let o3 := mkSmokeState
              (_density o2)
              (staggered_add (_velocity o2)
                 (staggered_from_scalar (_density o2)
                    (map (fun g => (g * buoyancy_factor e * (-1) * dt e)%Q)
                         (gravity e)))) in
  let o4 := mkSmokeState (_density o3) (bc (_velocity o3)) in
  let v := bc (_velocity o4) in
  step s m =
  match solver_solve (pressure_solver e) (as_divergence e (StaggeredField v))
                     (domainstate e) None with
  | Ok (p, it) =>
      (mkMachine
         (heap m ++ [o1; o2; o3; o4;
                     mkSmokeState (_density o4)
                                  (staggered_sub v (bc (staggered_gradient p)))])
         (with_diagnostics e p it),
       Ok (length (heap m) + 4)%nat)
  | Raise x => (mkMachine (heap m ++ [o1; o2; o3; o4]) e, Raise x)
  end.
Proof.
  intros H e bc advected o1 o2 o3 o4 v.
  set (m1 := fst (alloc o1 m)).
  set (m2 := fst (alloc o2 m1)).
  set (m3 := fst (alloc o3 m2)).
  set (m4 := fst (alloc o4 m3)).
  assert (R1 : advect s m = (m1, Ok (length (heap m)))) by exact (advect_run m s o H).
  assert (R2 : inflow (length (heap m)) m1 = (m2, Ok (length (heap m1))))
    by exact (inflow_run m1 _ o1 (alloc_new m o1)).
  assert (R3 : buoyancy (length (heap m1)) m2 = (m3, Ok (length (heap m2))))
    by exact (buoyancy_run m2 _ o2 (alloc_new m1 o2)).
  assert (R4 : friction (length (heap m2)) m3 = (m4, Ok (length (heap m3))))
    by exact (friction_run m3 _ o3 (alloc_new m2 o3)).
  assert (H4 : heap m4 !! length (heap m3) = Some o4) by apply alloc_new.
  assert (Hheap : heap m4 = heap m ++ [o1; o2; o3; o4]).
  { simpl. rewrite <- !app_assoc. reflexivity. }
  assert (Hlen : length (heap m4) = (length (heap m) + 4)%nat).
  { rewrite Hheap, length_app. reflexivity. }
  unfold step, State__mul__.
  rewrite (bind_returns _ _ _ _ _ R1), (bind_returns _ _ _ _ _ R2),
          (bind_returns _ _ _ _ _ R3), (bind_returns _ _ _ _ _ R4).
  destruct (solver_solve (pressure_solver e) (as_divergence e (StaggeredField v))
              (domainstate e) None) as [[p it] | x] eqn:E.
  - assert (Hp : solve_pressure (StaggeredField v) m4
                 = (mkMachine (heap m4) (with_diagnostics e p it), Ok p)).
    { rewrite solve_pressure_run.
      change (self m4) with e. rewrite E. reflexivity. }
    destruct (divergence_free_run m4 _ _ o4 p H4 Hp) as [Hrun _].
    rewrite Hrun. unfold alloc. cbn [heap self]. rewrite Hlen, Hheap.
    rewrite <- app_assoc. reflexivity.
  - rewrite (divergence_free_raises m4 _ o4 x H4 E).
    assert (Hm4 : m4 = mkMachine (heap m4) e) by reflexivity.
    rewrite Hm4, Hheap. reflexivity.
Qed.

(** X7.  Whenever [step] returns, the density of the state it returns is
    the advected density (normalized against the input density when
    [conserve_density] is set) plus the inflow mask times the time step:
    buoyancy, friction and the projection pass the density on as it is. *)
Theorem step_density (m m' : Machine) (s s' : ref) (o o' : SmokeState) :
  heap m !! s = Some o ->
  step s m = (m', Ok s') ->
  heap m' !! s' = Some o' ->
  let e := self m in
  let advected := advect_tensor (_velocity o) (_density o) (dt e) in
  _density o' =
  tensor_add
    (if conserve_density e then nd_normalize_to advected (_density o) else advected)
    (tensor_scale (inflow_mask (world e) (grid (domain e))) (dt e)).
Proof.
  intros H Hstep Hs' e advected.
  rewrite (step_written_out m s o H) in Hstep. cbv zeta in Hstep.
  destruct (solver_solve _ _ _ _) as [[p it] | x]; [| discriminate Hstep].
  injection Hstep as <- <-. cbn [heap] in Hs'.
  rewrite lookup_added in Hs'. injection Hs' as <-. reflexivity.
Qed.

End StepInFull.

Section StepComposed.

Context {rt : Runtime}.


(** X9.  Where the hard boundary conditions are idempotent on the velocity
    of a state, running [friction] before [divergence_free] changes nothing
    in the outcome: the projection of the state [friction] returns has the
    attributes of the projection of the state itself, leaves the same
    engine, and raises the same exception when the solver raises. *)
Theorem friction_is_absorbed_by_the_projection (m : Machine) (s : ref) (o : SmokeState) :
  heap m !! s = Some o ->
  let bc := with_hard_boundary_conditions (domainstate (self m)) in
  bc (bc (_velocity o)) = bc (_velocity o) ->
  exists m4 s4,
    friction s m = (m4, Ok s4) /\
    forall m' r,
      divergence_free s m = (m', r) ->
      exists m'' r',
        divergence_free s4 m4 = (m'', r') /\
        self m'' = self m' /\
        match r, r' with
        | Ok a, Ok b => heap m'' !! b = heap m' !! a /\ is_Some (heap m' !! a)
        | Raise x, Raise y => y = x
        | _, _ => False
        end.
Proof.
  intros H bc Hidem.
  set (e := self m).
  set (o4 := mkSmokeState (_density o) (bc (_velocity o))).
  set (m4 := fst (alloc o4 m)).
  assert (H4 : heap m4 !! length (heap m) = Some o4) by apply alloc_new.
  exists m4, (length (heap m)).
  split; [exact (friction_run m s o H) |].
  intros m' r Hrun.
  destruct (solver_solve (pressure_solver e)
              (as_divergence e (StaggeredField (bc (_velocity o))))
              (domainstate e) None) as [[p it] | x] eqn:E.
  - assert (Hp : solve_pressure (StaggeredField (bc (_velocity o))) m
                 = (mkMachine (heap m) (with_diagnostics e p it), Ok p)).
    { rewrite solve_pressure_run. fold e. rewrite E. reflexivity. }
    assert (Hp4 : solve_pressure (StaggeredField (bc (_velocity o4))) m4
                  = (mkMachine (heap m4) (with_diagnostics e p it), Ok p)).
    { rewrite solve_pressure_run. change (self m4) with e.
      unfold o4; cbn [_velocity]; fold bc. rewrite Hidem, E. reflexivity. }
    destruct (divergence_free_run m _ s o p H Hp) as [R _].
    destruct (divergence_free_run m4 _ _ o4 p H4 Hp4) as [R4 _].
    rewrite R in Hrun. injection Hrun as <- <-.
    eexists _, _. split; [exact R4 |]. split; [reflexivity |].
    cbn [alloc fst heap self]. unfold o4; cbn [_velocity _density].
    change (self m4) with (self m). fold bc.
    rewrite Hidem. rewrite !list_lookup_middle by reflexivity.
    split; [reflexivity | eexists; reflexivity].
  - rewrite (divergence_free_raises m s o x H E) in Hrun.
    injection Hrun as <- <-.
    assert (E4 : solver_solve (pressure_solver (self m4))
                   (as_divergence (self m4)
                      (StaggeredField
                         (with_hard_boundary_conditions (domainstate (self m4))
                            (_velocity o4))))
                   (domainstate (self m4)) None = Raise x).
    { change (self m4) with (self m). unfold o4; cbn [_velocity]. fold bc.
      rewrite Hidem. exact E. }
    eexists _, _. split; [exact (divergence_free_raises m4 _ o4 x H4 E4) |].
    split; reflexivity.
Qed.

(** ** Buoyancy under a scalar gravity *)

Lemma zero_forces (bf step_dt : Q) (n : nat) :
  Forall2 Qeq
    (map (fun g => (g * bf * (-1) * step_dt)%Q) (repeat 0%Q n))
    (repeat 0%Q n).
Proof.
  induction n as [| n IH]; simpl; constructor; [ring | exact IH].
Qed.

(** X10.  On an engine built with a float gravity [g], where numpy
    computes the force in float64, here idealised as rationals, [buoyancy]
    adds to the velocity the staggered field of the density under a force
    vector that has [-(g * buoyancy_factor * dt)] on axis 0 and zero on
    every other axis: the force points against gravity and along axis 0
    only.  The density is passed on. *)
Theorem buoyancy_of_a_scalar_gravity (d : Domain) (w : World) (step_dt : Q)
    (g : Q) (bf : Q) (cd : bool) (ps : option Solver)
    (m : Machine) (s : ref) (o : SmokeState) :
  Smoke__init__ d w step_dt (PyFloat g) bf cd ps = Ok (self m) ->
  heap m !! s = Some o ->
  exists m' s' forces,
    buoyancy s m = (m', Ok s') /\
    heap m' !! s' =
      Some (mkSmokeState
              (_density o)
              (staggered_add (_velocity o)
                 (staggered_from_scalar (_density o) forces))) /\
    Forall2 Qeq forces
      ((- (g * bf * step_dt))%Q :: repeat 0%Q (Z.to_nat (rank d - 1))).
Proof.
  intros Hinit H.
  unfold Smoke__init__ in Hinit.
  rewrite (gravity_vector_scalar (PyFloat g) d eq_refl) in Hinit.
  injection Hinit as He.
  eexists _, _, _. split; [exact (buoyancy_run m s o H) |].
  split; [apply alloc_new |].
  rewrite <- He. cbn [gravity buoyancy_factor dt map py_number].
  constructor; [ring | apply zero_forces].
Qed.

(** ** Several steps *)

(** X11.  On an engine whose solver returns, any number [n] of successive
    steps returns a state.  The store then holds [5 * n] more states, the
    states that were there are unchanged, the first input among them, and
    the settings of the engine are the ones it started with. *)
Theorem steps_return (n : nat) (m : Machine) (s : ref) (o : SmokeState) :
  heap m !! s = Some o ->
  solver_returns (self m) ->
  exists m' s' o',
    steps n s m = (m', Ok s') /\
    heap m' !! s' = Some o' /\
    length (heap m') = (length (heap m) + 5 * n)%nat /\
    preserves m m' /\
    same_settings (self m) (self m').
Proof.
  revert m s o. induction n as [| n IH]; intros m s o H Hsolver.
  - exists m, s, o. split; [reflexivity |]. split; [exact H |].
    split; [lia |]. split; [apply preserves_refl | apply same_settings_refl].
  - pose proof (step_written_out m s o H) as Hstep. cbv zeta in Hstep.
    match type of Hstep with
    | _ = match ?call with _ => _ end =>
        pose proof (Hsolver _ _ _ : returned call = true) as Hret;
        destruct call as [[p it] | x]; [| discriminate Hret]
    end.
    match type of Hstep with
    | _ = (?m1, Ok ?s1) =>
        assert (H1 : heap m1 !! s1 = Some _)
          by (cbn [heap]; rewrite lookup_added; reflexivity);
        destruct (IH m1 s1 _ H1) as (m' & s' & o' & Hrun & Hs' & Hlen & Hp & Hset);
          [exact Hsolver |]
    end.
    exists m', s', o'. split.
    { cbn [steps]. rewrite (bind_returns _ _ _ _ _ Hstep). exact Hrun. }
    split; [exact Hs' |]. split.
    { rewrite Hlen. cbn [heap]. rewrite length_app. simpl. lia. }
    split.
    { intros r o0 Hr. apply Hp. cbn [heap]. apply lookup_app_l_Some. exact Hr. }
    eapply same_settings_trans; [| exact Hset].
    apply same_settings_with_diagnostics.
Qed.

End StepComposed.

Section Serialized.

Context {rt : Runtime} {sz : Serialization}.

(** ** The dictionary of an engine *)

Lemma serialize_to_dict_run (m : Machine) :
  exists dict,
    serialize_to_dict m = (m, Ok dict) /\
    size dict = 9%nat /\
    dict !! "rank"%string = Some (DInt (rank (domain (self m)))) /\
    dict !! "gravity"%string = Some (DNumbers (gravity (self m))) /\
    dict !! "buoyancy_factor"%string = Some (DFloat (buoyancy_factor (self m))) /\
    dict !! "conserve_density"%string = Some (DBool (conserve_density (self m))) /\
    dict !! "solver"%string = Some (DStr (solver_name (pressure_solver (self m)))) /\
    dict !! "domain"%string
      = Some (DDomain (domain_serialize_to_dict (domain (self m)))) /\
    dict !! "dt"%string = None /\
    dict !! "world"%string = None /\
    dict !! "last_pressure"%string = None /\
    dict !! "last_iter"%string = None.
Proof.
  eexists. split; [reflexivity |].
  repeat split; vm_compute; reflexivity.
Qed.

(** The dictionary is a function of five attributes of the engine. *)
Lemma serialize_to_dict_reads (m m' : Machine) :
  domain (self m') = domain (self m) ->
  gravity (self m') = gravity (self m) ->
  buoyancy_factor (self m') = buoyancy_factor (self m) ->
  conserve_density (self m') = conserve_density (self m) ->
  pressure_solver (self m') = pressure_solver (self m) ->
  snd (serialize_to_dict m') = snd (serialize_to_dict m).
Proof.
  intros H1 H2 H3 H4 H5. unfold serialize_to_dict. run. cbn [snd].
  rewrite H1, H2, H3, H4, H5. reflexivity.
Qed.

(** X12.  The dictionary of an engine that the constructor has just built
    with a scalar gravity on a domain of rank at least 1 has nine entries.
    It gives back the buoyancy factor, the conservation flag and the name
    of the solver (of [SparseCG] when none was given), and its gravity
    list has as many numbers as its rank entry says, the scalar first.
    Neither the time step, nor the world, nor a diagnostic is an entry.
    Serializing changes nothing. *)
Theorem dictionary_of_a_new_engine (d : Domain) (w : World) (step_dt : Q)
    (g : PyObj) (bf : Q) (cd : bool) (ps : option Solver) (m : Machine) :
  Smoke__init__ d w step_dt g bf cd ps = Ok (self m) ->
  1 <= rank d ->
  exists dict r items,
    serialize_to_dict m = (m, Ok dict) /\
    size dict = 9%nat /\
    dict !! "rank"%string = Some (DInt r) /\
    dict !! "gravity"%string = Some (DNumbers items) /\
    Z.of_nat (length items) = r /\
    items !! 0%nat = Some (py_number g) /\
    dict !! "buoyancy_factor"%string = Some (DFloat bf) /\
    dict !! "conserve_density"%string = Some (DBool cd) /\
    dict !! "solver"%string
      = Some (DStr (solver_name (default (SparseCG (1 # 1000)) ps))) /\
    dict !! "dt"%string = None /\
    dict !! "world"%string = None /\
    dict !! "last_pressure"%string = None /\
    dict !! "last_iter"%string = None.
Proof.
  intros Hinit Hrank.
  destruct (Smoke__init__stores d w step_dt g bf cd ps _ Hinit)
    as (_ & _ & Hd & Hbf & Hcd & Hps & _ & _ & _ & Hlen & Hhead).
  destruct (serialize_to_dict_run m)
    as (dict & Hrun & Hsize & Hr & Hg & Hb & Hc & Hs & _ & Habsent).
  exists dict, (rank d), (gravity (self m)).
  rewrite Hd in Hr. rewrite Hbf in Hb. rewrite Hcd in Hc. rewrite Hps in Hs.
  repeat (split; [assumption |]).
  split; [lia |]. split; [exact Hhead |].
  repeat (split; [assumption |]). exact Habsent.
Qed.

(** X13.  The dictionary of the engine is the same after any stage, after
    [step], after [solve_pressure] and after [_update_domain] as it was
    before, whether the call returned or raised: what these calls change
    on the engine, the diagnostics and the domain state, is not
    serialized. *)
Theorem dictionary_is_stable (m m' : Machine) :
  (exists f s r,
     In f [advect; inflow; buoyancy; friction; divergence_free; step] /\
     f s m = (m', r)) \/
  (exists input r, solve_pressure input m = (m', r)) \/
  _update_domain m = (m', Ok tt) ->
  snd (serialize_to_dict m') = snd (serialize_to_dict m).
Proof.
  intros [(f & s & r & Hf & Hrun) | [(input & r & Hrun) | Hrun]].
  - destruct (listed_stage_keeps f s Hf m m' r Hrun)
      as [(_ & _ & H3 & H4 & H5 & H6 & H7 & _) _].
    apply serialize_to_dict_reads; assumption.
  - destruct (keeps_solve_pressure input m m' r Hrun)
      as [(_ & _ & H3 & H4 & H5 & H6 & H7 & _) _].
    apply serialize_to_dict_reads; assumption.
  - injection Hrun as <-. apply serialize_to_dict_reads; reflexivity.
Qed.

End Serialized.

(** * More runs on the small runtime *)

(** X2 on the plume: the function rebuilds a state from another density and
    one component, and fails on the empty list. *)
Lemma reassemble_on_any_list_witness :
  heap (Toy.machine false true) !! 0%nat = Some Toy.plume /\
  exists fields reassemble m1 s1,
    disassemble 0%nat (Toy.machine false true)
    = (Toy.machine false true, Ok (fields, reassemble)) /\
    reassemble [] (Toy.machine false true)
    = (Toy.machine false true, Raise IndexError) /\
    reassemble [[5; 5; 5]; [1; 1; 1]]%Q (Toy.machine false true) = (m1, Ok s1) /\
    heap m1 !! s1
    = Some (mkSmokeState ([5; 5; 5]%Q : Tensor) ([[1; 1; 1]]%Q : Staggered)).
Proof.
  split; [reflexivity |].
  destruct (reassemble_on_any_list (Toy.machine false true) 0%nat Toy.plume eq_refl)
    as (fields & reassemble & Hd & Hempty & Hbuild & _).
  destruct (Hbuild (Toy.machine false true) ([5; 5; 5]%Q : Toy.field)
              ([[1; 1; 1]]%Q : list Toy.field) ([[1; 1; 1]]%Q : list Toy.field)
              eq_refl)
    as (m1 & s1 & Hrun & _ & Hnew & _).
  exists fields, reassemble, m1, s1.
  split; [exact Hd |]. split; [apply Hempty |]. split; [exact Hrun | exact Hnew].
Defined.

(** X6 with the solver that rejects the zero field: the first solve is
    recorded, the second raises and the engine still shows the first. *)
Lemma second_solve_and_the_diagnostics_witness :
  solver_solve (Runtime := Picky.runtime) (pressure_solver (self Picky.machine))
    (as_divergence (self Picky.machine) (@TensorField Picky.runtime ([1; 2; 1]%Q : Toy.field)))
    (domainstate (self Picky.machine)) None
  = Ok ([1; 2; 1]%Q : Toy.field, 7%nat) /\
  exists m',
    solve_twice (rt := Picky.runtime)
      (@TensorField Picky.runtime ([1; 2; 1]%Q : Toy.field))
      (@TensorField Picky.runtime ([0; 0; 0]%Q : Toy.field)) Picky.machine
    = (m', Raise (Raised "singular system")) /\
    last_pressure (self m') = Some ([1; 2; 1]%Q : Toy.field) /\
    last_iter (self m') = Some 7%nat.
Proof.
  split; [reflexivity |].
  destruct (second_solve_and_the_diagnostics (rt := Picky.runtime) Picky.machine
              (@TensorField Picky.runtime ([1; 2; 1]%Q : Toy.field))
              (@TensorField Picky.runtime ([0; 0; 0]%Q : Toy.field))
              ([1; 2; 1]%Q : Toy.field) 7%nat eq_refl)
    as [_ Hstale].
  exact (Hstale (Raised "singular system") eq_refl).
Defined.

(** X7 on the plume: half of the density leaves, the normalization brings
    the total back to one, and the inflow adds one in the middle cell. *)
Lemma step_density_witness :
  heap (Toy.machine true true) !! 0%nat = Some Toy.plume /\
  exists m' o',
    step 0%nat (Toy.machine true true) = (m', Ok 5%nat) /\
    heap m' !! 5%nat = Some o' /\
    _density o' = [0 # 8; 16 # 8; 0 # 8]%Q.
Proof.
  split; [reflexivity |].
  pose (m' := fst (step 0%nat (Toy.machine true true))).
  assert (Hstep : step 0%nat (Toy.machine true true) = (m', Ok 5%nat))
    by (vm_compute; reflexivity).
  destruct (heap m' !! 5%nat) as [o' |] eqn:Ho';
    [| vm_compute in Ho'; discriminate Ho'].
  exists m', o'. split; [exact Hstep |]. split; [exact Ho' |].
  rewrite (step_density (Toy.machine true true) m' 0%nat 5%nat Toy.plume o'
             eq_refl Hstep Ho').
  vm_compute. reflexivity.
Defined.


(** X9 on the plume, where nothing is masked. *)
Lemma friction_is_absorbed_by_the_projection_witness :
  heap (Toy.machine false true) !! 0%nat = Some Toy.plume /\
  with_hard_boundary_conditions (domainstate (self (Toy.machine false true)))
    (with_hard_boundary_conditions (domainstate (self (Toy.machine false true)))
       (_velocity Toy.plume))
  = with_hard_boundary_conditions (domainstate (self (Toy.machine false true)))
      (_velocity Toy.plume) /\
  exists m4 s4 m'' b,
    friction 0%nat (Toy.machine false true) = (m4, Ok s4) /\
    divergence_free s4 m4 = (m'', Ok b) /\
    heap m'' !! b
    = heap (fst (divergence_free 0%nat (Toy.machine false true))) !! 1%nat.
Proof.
  split; [reflexivity |]. split; [reflexivity |].
  destruct (friction_is_absorbed_by_the_projection
              (Toy.machine false true) 0%nat Toy.plume eq_refl eq_refl)
    as (m4 & s4 & Hf & Hsame).
  destruct (Hsame _ _ eq_refl) as (m'' & r' & Hrun & _ & Hout).
  destruct r' as [b | y]; [| destruct Hout].
  exists m4, s4, m'', b. split; [exact Hf |]. split; [exact Hrun |].
  exact (proj1 Hout).
Defined.

(** X10 at the defaults: gravity [-9.81], buoyancy factor [0.1] and time
    step [1] give the force [0.981] on axis 0 and none on axis 1. *)
Lemma buoyancy_of_a_scalar_gravity_witness :
  Smoke__init__ Open2D the_world 1 (PyFloat (-981 # 100)) (1 # 10) false (Some true)
  = Ok (self (Toy.machine false true)) /\
  heap (Toy.machine false true) !! 0%nat = Some Toy.plume /\
  exists m' s' forces,
    buoyancy 0%nat (Toy.machine false true) = (m', Ok s') /\
    Forall2 Qeq forces [981 # 1000; 0]%Q.
Proof.
  split; [reflexivity |]. split; [reflexivity |].
  destruct (buoyancy_of_a_scalar_gravity (rt := Toy.runtime)
              Open2D the_world 1 (-981 # 100) (1 # 10) false (Some true)
              (Toy.machine false true) 0%nat Toy.plume eq_refl eq_refl)
    as (m' & s' & forces & Hrun & _ & Hforces).
  exists m', s', forces. split; [exact Hrun |].
  inversion Hforces as [| x y l l' Hx Hl]; subst.
  constructor; [| exact Hl].
  rewrite Hx. reflexivity.
Defined.

(** X11: three steps on the plume leave sixteen states in the store. *)
Lemma steps_return_witness :
  heap (Toy.machine true true) !! 0%nat = Some Toy.plume /\
  solver_returns (self (Toy.machine true true)) /\
  exists m' s',
    steps 3 0%nat (Toy.machine true true) = (m', Ok s') /\
    length (heap m') = 16%nat /\
    heap m' !! 0%nat = Some Toy.plume.
Proof.
  split; [reflexivity |]. split; [apply toy_solver_returns |].
  destruct (steps_return 3 (Toy.machine true true) 0%nat Toy.plume eq_refl
              (toy_solver_returns true))
    as (m' & s' & o' & Hrun & _ & Hlen & Hkept & _).
  exists m', s'. split; [exact Hrun |]. split; [exact Hlen |].
  apply Hkept. reflexivity.
Defined.

(** X12 at the defaults. *)
Lemma dictionary_of_a_new_engine_witness :
  Smoke__init__ Open2D the_world 1 (PyFloat (-981 # 100)) (1 # 10) false (Some true)
  = Ok (self (Toy.machine false true)) /\
  1 <= rank (Open2D (Runtime := Toy.runtime)) /\
  exists dict,
    serialize_to_dict (Toy.machine false true) = (Toy.machine false true, Ok dict) /\
    dict !! "rank"%string = Some (DInt 2) /\
    dict !! "gravity"%string = Some (DNumbers [-981 # 100; 0]%Q) /\
    dict !! "solver"%string = Some (DStr "echo") /\
    dict !! "dt"%string = None.
Proof.
  split; [reflexivity |]. split; [simpl; lia |].
  destruct (dictionary_of_a_new_engine (rt := Toy.runtime)
              Open2D the_world 1 (PyFloat (-981 # 100)) (1 # 10) false (Some true)
              (Toy.machine false true) eq_refl)
    as (dict & r & items & Hrun & _ & _ & _ & _ & _ & _ & _ & Hsolver & Hdt & _);
    [simpl; lia |].
  exists dict. split; [exact Hrun |].
  injection Hrun as <-.
  split; [reflexivity |]. split; [reflexivity |]. split; [exact Hsolver | exact Hdt].
Defined.

(** X13 on a step that raises: the dictionary is what it was. *)
Lemma dictionary_is_stable_witness :
  snd (step 0%nat (Toy.machine false false))
  = Raise (Raised "solver did not converge") /\
  snd (serialize_to_dict (fst (step 0%nat (Toy.machine false false))))
  = snd (serialize_to_dict (Toy.machine false false)).
Proof.
  split; [reflexivity |].
  apply (dictionary_is_stable (Toy.machine false false)).
  left. exists step, 0%nat, (Raise (Raised "solver did not converge")).
  split; [simpl; tauto | reflexivity].
Defined.
